(** * LunaReading: the React client's answer flow, configuration and
    authentication context, embedded from the JavaScript sources.

    Objects used as dictionaries ([answers], [feedbacks], [formData],
    [localStorage], the axios default headers) are finite maps; React state
    is passed explicitly; every HTTP call takes its outcome as an argument
    and is recorded in a list of issued requests. Handlers run one at a
    time, each to completion.

    The Flask backend is not among the sources. Where a statement is about
    what the server does with a submission, module [Core] holds a model of
    it written from the specification. *)

From Stdlib Require Import QArith ZArith Ascii String List Bool Lia.
From stdpp Require Import gmap strings list fin_maps pretty.

Local Open Scope Z_scope.
Local Open Scope string_scope.

(** ** JavaScript values and string primitives *)

Module Js.

(** Text is a string of code units below 256. *)

(** The white space that [String.prototype.trim] strips, restricted to
    that range: TAB, LF, VT, FF, CR, SPACE and NBSP. *)
Definition is_space (c : ascii) : bool :=
  let n := nat_of_ascii c in
  ((9 <=? n)%nat && (n <=? 13)%nat) || (n =? 32)%nat || (n =? 160)%nat.

Fixpoint trimStart (s : string) : string :=
  match s with
  | EmptyString => EmptyString
  | String c s' => if is_space c then trimStart s' else s
  end.

Definition trimEnd (s : string) : string :=
  String.rev (trimStart (String.rev s)).

Definition trim (s : string) : string := trimEnd (trimStart s).

(** Truthiness of a value that is a string, [null] or [undefined]. *)
Definition truthy (o : option string) : bool :=
  match o with
  | Some s => negb (String.eqb s "")
  | None => false
  end.

(** [o || fallback] on such a value. *)
Definition or_else (o : option string) (fallback : string) : string :=
  match o with
  | Some s => if String.eqb s "" then fallback else s
  | None => fallback
  end.

(** [s.replace(/\/$/, '')]: the pattern matches one slash at the very end
    of the input, and [replace] with a non-global pattern rewrites that
    single match. *)
Fixpoint replace_trailing_slash (s : string) : string :=
  match s with
  | EmptyString => EmptyString
  | String c EmptyString => if Ascii.eqb c "/" then EmptyString else s
  | String c s' => String c (replace_trailing_slash s')
  end.

Fixpoint endsWith_slash (s : string) : bool :=
  match s with
  | EmptyString => false
  | String c EmptyString => Ascii.eqb c "/"
  | String _ s' => endsWith_slash s'
  end.

(** A number that is a finite double is its exact rational value; [None]
    stands for [null], [undefined] and [NaN], for which every [>=]
    comparison against a positive literal is false. *)
Definition number := option Q.

(** The double that the literal [0.7] denotes: 0x3FE6666666666666. *)
Definition lit_0_7 : Q := 3152519739159347 # 4503599627370496.

(** The double that the literal [0.5] denotes. *)
Definition lit_0_5 : Q := 1 # 2.

(** [x >= lit] *)
Definition ge (x : number) (lit : Q) : bool :=
  match x with
  | Some q => Qle_bool lit q
  | None => false
  end.

End Js.

(** ** config.js: the API base URL *)

Module Config.

(** The three places the base URL can come from; each is a string or
    [undefined]. *)
Record Env := {
  env_REACT_APP_API_URL : option string;     (* process.env.REACT_APP_API_URL *)
  window_REACT_APP_API_URL : option string;  (* window.REACT_APP_API_URL *)
  env_NODE_ENV : option string               (* process.env.NODE_ENV *)
}.

(** The value of [API_BASE_URL] after the if / else-if chain. *)
Definition API_BASE_URL (e : Env) : string :=
  if Js.truthy (env_REACT_APP_API_URL e) then
    default "" (env_REACT_APP_API_URL e)
  else if Js.truthy (window_REACT_APP_API_URL e)
          && negb (bool_decide (window_REACT_APP_API_URL e = Some "")) then
    default "" (window_REACT_APP_API_URL e)
  else if bool_decide (env_NODE_ENV e = Some "production") then
    ""
  else
    "http://localhost:5001".

(** [if (API_BASE_URL) API_BASE_URL = API_BASE_URL.replace(/\/$/, '')] *)
Definition API_URL (e : Env) : string :=
  if Js.truthy (Some (API_BASE_URL e))
  then Js.replace_trailing_slash (API_BASE_URL e)
  else API_BASE_URL e.

Definition env_double_slash : Env :=
  {| env_REACT_APP_API_URL := Some "https://api.example.com//";
     window_REACT_APP_API_URL := None;
     env_NODE_ENV := Some "production" |}.

End Config.

(** ** context/AuthContext.js: the authentication provider *)

Module Auth.

(** The profile object the server returns; the provider stores it as is. *)
Record User := {
  username : string;
  email : string;
  grade_level : Z;
  reading_level : Js.number
}.

(** React state of [AuthProvider] together with the two global stores it
    writes: [localStorage] and [axios.defaults]. *)
Record State := {
  user : option User;
  loading : bool;
  token : option string;
  localStorage : gmap string string;
  axios_baseURL : option string;
  axios_headers_common : gmap string string
}.

(** Outcome of an awaited axios call. *)
Inductive Outcome (A : Type) :=
| Resolved (data : A)
| Rejected.
Arguments Resolved {A} data.
Arguments Rejected {A}.

Definition logout (st : State) : State :=
  {| user := None;                                          (* setUser(null) *)
     loading := loading st;
     token := None;                                         (* setToken(null) *)
     localStorage := delete "token" (localStorage st);      (* removeItem('token') *)
     axios_baseURL := axios_baseURL st;
     axios_headers_common :=
       delete "Authorization" (axios_headers_common st) |}.

Definition setUser (u : option User) (st : State) : State :=
  {| user := u; loading := loading st; token := token st;
     localStorage := localStorage st; axios_baseURL := axios_baseURL st;
     axios_headers_common := axios_headers_common st |}.

Definition setLoading (b : bool) (st : State) : State :=
  {| user := user st; loading := b; token := token st;
     localStorage := localStorage st; axios_baseURL := axios_baseURL st;
     axios_headers_common := axios_headers_common st |}.

(** [fetchProfile]: try / catch / finally around the GET of the profile. *)
Definition fetchProfile (res : Outcome User) (st : State) : State :=
  setLoading false
    match res with
    | Resolved data => setUser (Some data) st
    | Rejected => logout st
    end.

(** The effect that runs when [token] changes. *)
Definition tokenEffect (API_URL : string) (res : Outcome User) (st : State)
  : State :=
  match token st with
  | Some t =>
      if Js.truthy (Some t) then
        fetchProfile res
          {| user := user st; loading := loading st; token := token st;
             localStorage := localStorage st;
             axios_baseURL :=
               if Js.truthy (Some API_URL) then Some API_URL
               else axios_baseURL st;
             axios_headers_common :=
               <["Authorization" := "Bearer " ++ t]>
                 (axios_headers_common st) |}
      else setLoading false st
  | None => setLoading false st
  end.

(** [login] after the POST resolved with [access_token] and [user]. *)
Definition login_resolved (access_token : string) (userData : User)
    (st : State) : State :=
  {| user := Some userData; loading := loading st;
     token := Some access_token;
     localStorage := <["token" := access_token]> (localStorage st);
     axios_baseURL := axios_baseURL st;
     axios_headers_common :=
       <["Authorization" := "Bearer " ++ access_token]>
         (axios_headers_common st) |}.

Definition init : State :=
  {| user := None; loading := true; token := None; localStorage := ∅;
     axios_baseURL := None; axios_headers_common := ∅ |}.

Definition luna : User :=
  {| username := "luna"; email := "luna@example.com"; grade_level := 3;
     reading_level := Some (0 # 1) |}.

Definition logged_in : State := login_resolved "tok-1" luna init.

End Auth.

(** ** components/SessionCreate.js: the session-create form *)

Module SessionCreate.

(** A field of [formData] holds a number (the initial [5]) or a string
    (whatever a change event carried). *)
Inductive value :=
| VNum (n : Z)
| VStr (s : string).

Definition formData0 : gmap string value :=
  <["book_title" := VStr ""]>
    (<["chapter" := VStr ""]> (<["total_questions" := VNum 5]> ∅)).

(** What [handleChange] reads from a change event. *)
Record ChangeEvent := {
  target_name : string;
  target_value : string
}.

Definition handleChange (formData : gmap string value) (e : ChangeEvent)
  : gmap string value :=
  <[target_name e := VStr (target_value e)]> formData.

(** The [value] attributes of the four [<option>] elements. *)
Definition option_values : list string := ["3"; "5"; "7"; "10"].

(** The change events the rendered form can fire: free text from the two
    text inputs, one of the option values from the [<select>]. *)
Definition from_form (e : ChangeEvent) : Prop :=
  target_name e = "book_title" \/
  target_name e = "chapter" \/
  (target_name e = "total_questions" /\ target_value e ∈ option_values).

#[global] Instance from_form_dec (e : ChangeEvent) : Decision (from_form e).
Proof. unfold from_form. apply _. Defined.

Definition digit_value (c : ascii) : option Z :=
  let n := Z.of_nat (nat_of_ascii c) in
  if ((48 <=? n) && (n <=? 57))%Z then Some (n - 48)
  else if ((97 <=? n) && (n <=? 122))%Z then Some (n - 87)
  else if ((65 <=? n) && (n <=? 90))%Z then Some (n - 55)
  else None.

(** The longest prefix of digits below [radix], read as a number; [acc] is
    [None] as long as no digit was read. *)
Fixpoint parse_digits (radix : Z) (s : string) (acc : option Z) : option Z :=
  match s with
  | EmptyString => acc
  | String c s' =>
      match digit_value c with
      | Some d =>
          if (d <? radix)%Z
          then parse_digits radix s' (Some (default 0 acc * radix + d))
          else acc
      | None => acc
      end
  end.

(** [parseInt(s)] without a radix argument; [None] is [NaN]. *)
Definition parseInt_string (s : string) : option Z :=
  let s1 := Js.trimStart s in
  let '(sign, s2) :=
    match s1 with
    | String "-" r => (-1, r)
    | String "+" r => (1, r)
    | _ => (1, s1)
    end in
  let '(radix, s3) :=
    match s2 with
    | String "0" (String "x" r) => (16, r)
    | String "0" (String "X" r) => (16, r)
    | _ => (10, s2)
    end in
  Z.mul sign <$> parse_digits radix s3 None.

(** [parseInt] first converts its argument to a string; an integer prints
    as its decimal digits (in JavaScript as long as its magnitude is below
    2^53, where numbers are exact). *)
Definition parseInt (v : option value) : option Z :=
  match v with
  | Some (VNum n) => parseInt_string (pretty n)
  | Some (VStr s) => parseInt_string s
  | None => None
  end.

(** The JSON body of the POST to /api/sessions. *)
Record Body := {
  book_title : option value;
  chapter : option value;
  total_questions : option Z
}.

Definition handleSubmit (formData : gmap string value) : Body :=
  {| book_title := formData !! "book_title";
     chapter := formData !! "chapter";
     total_questions := parseInt (formData !! "total_questions") |}.

(** What the [total_questions] field can hold. *)
Definition total_questions_ok (formData : gmap string value) : Prop :=
  formData !! "total_questions" = Some (VNum 5) \/
  exists v, v ∈ option_values /\ formData !! "total_questions" = Some (VStr v).

Definition sample_events : list ChangeEvent :=
  [ {| target_name := "book_title"; target_value := "Charlotte's Web" |};
    {| target_name := "total_questions"; target_value := "10" |};
    {| target_name := "chapter"; target_value := "Chapter 1" |} ].

End SessionCreate.

(** ** components/SessionView.js: answering the questions of a session *)

Module SessionView.

(** A question as the session endpoint returns it. *)
Record Question := {
  id : Z;
  question_number : Z;
  question_text : string;
  answer : option string;
  feedback : option string;
  score : Js.number;
  rating : option Z
}.

Record Session := {
  book_title : string;
  chapter : string;
  questions : list Question
}.

(** An entry of [feedbacks].  [isSufficient] is kept as its truthiness;
    [submissionType] is [undefined] for entries built by [fetchSession]. *)
Record Feedback := {
  fb_feedback : option string;
  fb_score : Js.number;
  fb_rating : option Z;
  isSufficient : bool;
  submissionType : option string
}.

(** [response.data] of the POST to /api/questions/:id/answer. *)
Record AnswerResponse := {
  r_feedback : option string;
  r_score : Js.number;
  r_rating : option Z;
  r_is_sufficient : bool;
  r_submission_type : option string;
  r_examples : option (list string)
}.

(** Outcome of an awaited axios call; a rejection may carry
    [err.response.data.error]. *)
Inductive Outcome (A : Type) :=
| Resolved (data : A)
| Rejected (server_error : option string).
Arguments Resolved {A} data.
Arguments Rejected {A} server_error.

(** The two requests of the component: the GET of /api/sessions/:id and the
    POST to /api/questions/:id/answer with its body. *)
Inductive Request :=
| GetSession
| PostAnswer (questionId : Z) (answer_text submission_type : string).

(** The component's state; the audio flags are left out, they do not
    take part in submitting. *)
Record State := {
  session : option Session;
  answers : gmap Z string;
  feedbacks : gmap Z Feedback;
  examples : gmap Z (list string);
  submissionStates : gmap Z bool;
  loading : bool;
  submitting : gmap Z bool;
  error : string
}.

Definition init : State :=
  {| session := None; answers := ∅; feedbacks := ∅; examples := ∅;
     submissionStates := ∅; loading := true; submitting := ∅; error := "" |}.

Definition feedbackOf (q : Question) : Feedback :=
  {| fb_feedback := feedback q;
     fb_score := score q;
     fb_rating := rating q;
     isSufficient := Js.ge (score q) Js.lit_0_7;
     submissionType := None |}.

(** The three [forEach] accumulations of [fetchSession]. *)
Definition initialAnswers (qs : list Question) : gmap Z string :=
  foldl (fun m q => if Js.truthy (answer q)
                    then <[id q := default "" (answer q)]> m else m) ∅ qs.

Definition initialFeedbacks (qs : list Question) : gmap Z Feedback :=
  foldl (fun m q => if Js.truthy (feedback q)
                    then <[id q := feedbackOf q]> m else m) ∅ qs.

Definition initialSubmissionStates (qs : list Question) : gmap Z bool :=
  foldl (fun m q => if Js.truthy (feedback q)
                    then <[id q := true]> m else m) ∅ qs.

Definition fetchSession (st : State) (res : Outcome Session) : State :=
  match res with
  | Resolved data =>
      {| session := Some data;
         answers := initialAnswers (questions data);
         feedbacks := initialFeedbacks (questions data);
         examples := ∅;
         submissionStates := initialSubmissionStates (questions data);
         loading := false;
         submitting := submitting st;
         error := error st |}
  | Rejected e =>
      {| session := session st; answers := answers st;
         feedbacks := feedbacks st; examples := examples st;
         submissionStates := submissionStates st;
         loading := false;
         submitting := submitting st;
         error := Js.or_else e "Failed to load session" |}
  end.

Definition handleAnswerChange (st : State) (questionId : Z) (v : string)
  : State :=
  {| session := session st; answers := <[questionId := v]> (answers st);
     feedbacks := feedbacks st; examples := examples st;
     submissionStates := submissionStates st; loading := loading st;
     submitting := submitting st; error := error st |}.

(** [!a || !a.trim()] for [a = answers[questionId]]. *)
Definition blank (a : option string) : bool :=
  negb (Js.truthy a) || negb (Js.truthy (Js.trim <$> a)).

Definition feedbackData (r : AnswerResponse) : Feedback :=
  {| fb_feedback := r_feedback r;
     fb_score := r_score r;
     fb_rating := r_rating r;
     isSufficient := r_is_sufficient r;
     submissionType := r_submission_type r |}.

(** [examples && examples.length > 0] *)
Definition has_examples (r : AnswerResponse) : bool :=
  match r_examples r with
  | Some (_ :: _) => true
  | _ => false
  end.

(** [submitAnswer(questionId, submissionType)].  [post] is the outcome of
    the POST, [refresh] that of the GET which [fetchSession] issues when
    it is called; the state returned is the one after all updates of both
    calls have been applied, in the order they are made. This is the
    handler running alone: nothing else changes the state between the click
    and the responses ([SessionAsync] has the two halves apart). *)
Definition submitAnswer (st : State) (questionId : Z) (submissionType : string)
    (post : Outcome AnswerResponse) (refresh : Outcome Session)
  : State * list Request :=
  if blank (answers st !! questionId) then
    ({| session := session st; answers := answers st;
        feedbacks := feedbacks st; examples := examples st;
        submissionStates := submissionStates st; loading := loading st;
        submitting := submitting st;
        error := "Please provide an answer before submitting" |}, [])
  else
    let request :=
      PostAnswer questionId (default "" (answers st !! questionId))
                 submissionType in
    match post with
    | Resolved r =>
        let st1 :=
          {| session := session st; answers := answers st;
             feedbacks := <[questionId := feedbackData r]> (feedbacks st);
             examples :=
               if has_examples r
               then <[questionId := default [] (r_examples r)]> (examples st)
               else examples st;
             submissionStates :=
               if has_examples r
               then <[questionId := true]> (submissionStates st)
               else submissionStates st;
             loading := loading st;
             submitting := <[questionId := false]> (submitting st);
             error := "" |} in
        if String.eqb submissionType "final" || r_is_sufficient r
        then (fetchSession st1 refresh, [request; GetSession])
        else (st1, [request])
    | Rejected e =>
        ({| session := session st; answers := answers st;
            feedbacks := feedbacks st; examples := examples st;
            submissionStates := submissionStates st; loading := loading st;
            submitting := <[questionId := false]> (submitting st);
            error := Js.or_else e "Failed to submit answer" |}, [request])
    end.

(** *** What the component renders for one question *)

(** [submissionStates[question.id] || false] *)
Definition hasFirstSubmission (st : State) (q : Question) : bool :=
  default false (submissionStates st !! id q).

(** [feedback?.isSufficient || question.score >= 0.7] *)
Definition isCompleted (st : State) (q : Question) : bool :=
  default false (isSufficient <$> feedbacks st !! id q)
  || Js.ge (score q) Js.lit_0_7.

(** [feedback?.submissionType === t] *)
Definition submissionType_is (st : State) (q : Question) (t : string) : bool :=
  bool_decide ((feedbacks st !! id q) ≫= submissionType = Some t).

Definition showActionButtons (st : State) (q : Question) : bool :=
  hasFirstSubmission st q && negb (isCompleted st q)
  && submissionType_is st q "initial".

(** The submission type each rendered submit button passes to
    [submitAnswer]: "Submit Answer" in the not-completed branch, "Try Again"
    and "Final Submit" inside the feedback block of an initial
    submission. *)
Definition submitButtons (st : State) (q : Question) : list string :=
  (if negb (isCompleted st q) && negb (hasFirstSubmission st q)
   then ["initial"] else [])
  ++
  (if bool_decide (is_Some (feedbacks st !! id q))
      && negb (isCompleted st q)
      && submissionType_is st q "initial"
      && showActionButtons st q
   then ["retry"; "final"] else []).

(** [disabled={submitting[question.id] || !answers[question.id]?.trim()}] *)
Definition button_disabled (st : State) (q : Question) : bool :=
  default false (submitting st !! id q)
  || negb (Js.truthy (Js.trim <$> answers st !! id q)).

Definition getScoreClass (score : Js.number) : string :=
  if Js.ge score Js.lit_0_7 then "score-high"
  else if Js.ge score Js.lit_0_5 then "score-medium"
  else "score-low".

Definition allCompleted (st : State) (s : Session) : bool :=
  forallb (isCompleted st) (questions s).

(** Text that [trim] empties: nothing but white space. *)
Definition whitespace_only (s : string) : bool :=
  forallb Js.is_space (list_ascii_of_string s).

End SessionView.

(** ** The server side of a submission

    The Flask routes (routes/questions.py) and the reading-level update of
    utils.py are not among the sources; what the client's contract with
    them needs is written down here from the specification. *)

Module Core.

(** Modelled from the spec: the submission type of an Answer, "one of
    initial, retry, final"; routes/questions.py is missing. *)
Inductive SubmissionType := initial | retry | final.

(** Modelled from the spec: the states of a Question in section 4.1;
    routes/questions.py is missing. *)
Inductive QuestionState :=
| NOT_ATTEMPTED
| AWAITING_FIRST_FEEDBACK
| AWAITING_RETRY
| SUFFICIENT
| FINALIZED.

(** Modelled from the spec: the error taxonomy of section 7 that a single
    submission can raise; routes/questions.py is missing. *)
Inductive Error :=
| EmptyAnswerError
| InvalidSubmissionOrder
| QuestionAlreadyComplete
| EvaluatorFailure.

(** Modelled from the spec: an Answer row (text, submission type,
    normalized score, integer rating); the table definition is missing. *)
Record Answer := {
  answer_text : string;
  submission_type : SubmissionType;
  score : Q;
  rating : Z
}.

(** Modelled from the spec: what the evaluator returns; a missing or NaN
    score is [None]. utils.py is missing. *)
Record Evaluation := {
  e_score : option Q;
  e_rating : Z;
  e_feedback : string;
  e_examples : list string
}.

(** Modelled from the spec: a Question with its append-only Answer history
    (oldest first) and the denormalized current answer, score and rating. *)
Record Question := {
  question_text : string;
  history : list Answer;
  current_answer : option string;
  current_score : option Q;
  current_rating : option Z
}.

(** Modelled from the spec: "configured constant (default 0.7)". *)
Definition default_threshold : Q := 7 # 10.

Definition SubmissionType_eqb (a b : SubmissionType) : bool :=
  match a, b with
  | initial, initial | retry, retry | final, final => true
  | _, _ => false
  end.

Section StateMachine.

Variable threshold : Q.

(** Modelled from the spec: "sufficiency flag (derived: score >=
    threshold)". *)
Definition is_sufficient (s : Q) : bool := Qle_bool threshold s.

(** Modelled from the spec: the state derived from the Answer history: a
    final submission finalizes whatever its score, any other answer is
    sufficient or awaits a retry by its score. *)
Definition deriveState (h : list Answer) : QuestionState :=
  match last h with
  | None => NOT_ATTEMPTED
  | Some a =>
      match submission_type a with
      | final => FINALIZED
      | _ => if is_sufficient (score a) then SUFFICIENT else AWAITING_RETRY
      end
  end.

(** Modelled from the spec: the boolean [isTerminal(state)] hook. *)
Definition isTerminal (s : QuestionState) : bool :=
  match s with
  | SUFFICIENT | FINALIZED => true
  | _ => false
  end.

(** Modelled from the spec: the transition table of section 4.1. *)
Definition legalTypes (s : QuestionState) : list SubmissionType :=
  match s with
  | NOT_ATTEMPTED => [initial]
  | AWAITING_RETRY => [retry; final]
  | AWAITING_FIRST_FEEDBACK | SUFFICIENT | FINALIZED => []
  end.

(** Modelled from the spec: [recordSubmission(question, submissionType,
    answerText, evaluate)]: validate the text, check the type against
    the derived state, call the evaluator, then append one Answer and
    overwrite the denormalized fields; on any error nothing is
    written. [evaluate] returns [None] when the evaluator raises. *)
Definition recordSubmission (q : Question) (ty : SubmissionType)
    (text : string) (evaluate : string -> string -> option Evaluation)
  : Error + (Answer * QuestionState * Question) :=
  if String.eqb (Js.trim text) "" then inl EmptyAnswerError
  else if isTerminal (deriveState (history q)) then
    inl QuestionAlreadyComplete
  else if negb (existsb (SubmissionType_eqb ty)
                        (legalTypes (deriveState (history q)))) then
    inl InvalidSubmissionOrder
  else
    match evaluate (question_text q) text with
    | None => inl EvaluatorFailure
    | Some ev =>
        match e_score ev with
        | None => inl EvaluatorFailure
        | Some sc =>
            let a := {| answer_text := text; submission_type := ty;
                        score := sc; rating := e_rating ev |} in
            let h := (history q ++ [a])%list in
            inr (a, deriveState h,
                 {| question_text := question_text q;
                    history := h;
                    current_answer := Some text;
                    current_score := Some sc;
                    current_rating := Some (e_rating ev) |})
        end
    end.

(** *** Reading-level aggregator *)

(** Modelled from the spec: the user row, as far as the aggregator reads
    and writes it. *)
Record User := {
  grade_level : Z;
  reading_level : Q
}.

(** Modelled from the spec: the persisted state the aggregator works on:
    the users and the answer log, each answer with its owner. *)
Record Store := {
  users : gmap Z User;
  answer_log : list (Z * Answer)
}.

(** Modelled from the spec: a terminal Answer is sufficient or of type
    final. *)
Definition is_terminal_answer (a : Answer) : bool :=
  SubmissionType_eqb (submission_type a) final || is_sufficient (score a).

(** Modelled from the spec: [getTerminalAnswers(userId)], reduced to the
    scores, in log order. *)
Definition terminalScores (st : Store) (userId : Z) : list Q :=
  score <$> (snd <$> filter (fun e => bool_decide (fst e = userId)
                                      && is_terminal_answer (snd e))
                            (answer_log st)).

(** Modelled from the spec: "the arithmetic mean of terminal scores". *)
Definition mean (l : list Q) : Q :=
  (foldr Qplus (0 # 1) l / inject_Z (Z.of_nat (length l)))%Q.

(** Modelled from the spec: the curve that maps the mean score onto a scale
    anchored at the grade level; its exact shape is left open there. *)
Variable scale : Q -> Z -> Q.

(** Modelled from the spec: [recomputeReadingLevel(userId, ...)]: a full
    recompute from the terminal answers; with none of them the stored
    level stays. *)
Definition recomputeReadingLevel (userId : Z) (st : Store) : Store :=
  match users st !! userId with
  | None => st
  | Some u =>
      match terminalScores st userId with
      | [] => st
      | scores =>
          {| users :=
               <[userId := {| grade_level := grade_level u;
                              reading_level :=
                                scale (mean scores) (grade_level u) |}]>
                 (users st);
             answer_log := answer_log st |}
      end
  end.

(** Modelled from the spec: the single reading level that a recompute
    outputs, read back from the user row. *)
Definition levelAfter (userId : Z) (st : Store) : option Q :=
  reading_level <$> users (recomputeReadingLevel userId st) !! userId.

End StateMachine.

End Core.

(** ** A session with one question, played through *)

Module Scenario.
Import SessionView.

Definition q1 : Question :=
  {| id := 1; question_number := 1;
     question_text := "Why did Wilbur cry?";
     answer := None; feedback := None; score := None; rating := None |}.

Definition session0 : Session :=
  {| book_title := "Charlotte's Web"; chapter := "Chapter 1";
     questions := [q1] |}.

Definition st_loaded : State := fetchSession init (Resolved session0).

Definition st_typed : State := handleAnswerChange st_loaded 1 "He was lonely".

(** The evaluator scores the first answer 0.25. *)
Definition resp_initial_low : AnswerResponse :=
  {| r_feedback := Some "Say why he was lonely.";
     r_score := Some (1 # 4); r_rating := Some 2;
     r_is_sufficient := false; r_submission_type := Some "initial";
     r_examples := Some ["Wilbur cried because [_____]."] |}.

Definition after_initial : State * list Request :=
  submitAnswer st_typed 1 "initial" (Resolved resp_initial_low) (Rejected None).

(** The retry is scored 0.5, still below the threshold. *)
Definition resp_retry_low : AnswerResponse :=
  {| r_feedback := Some "Closer, but name the reason.";
     r_score := Some (1 # 2); r_rating := Some 3;
     r_is_sufficient := false; r_submission_type := Some "retry";
     r_examples := None |}.

Definition after_retry : State * list Request :=
  submitAnswer after_initial.1 1 "retry" (Resolved resp_retry_low)
               (Rejected None).

(** Instead of retrying, the pupil submits the same answer as final; it is
    scored 0.25 again, and the session is fetched anew. *)
Definition resp_final_low : AnswerResponse :=
  {| r_feedback := Some "Say why he was lonely.";
     r_score := Some (1 # 4); r_rating := Some 2;
     r_is_sufficient := false; r_submission_type := Some "final";
     r_examples := None |}.

Definition q1_stored : Question :=
  {| id := 1; question_number := 1;
     question_text := "Why did Wilbur cry?";
     answer := Some "He was lonely";
     feedback := Some "Say why he was lonely.";
     score := Some (1 # 4); rating := Some 2 |}.

Definition session_stored : Session :=
  {| book_title := "Charlotte's Web"; chapter := "Chapter 1";
     questions := [q1_stored] |}.

Definition after_final : State * list Request :=
  submitAnswer after_initial.1 1 "final" (Resolved resp_final_low)
               (Resolved session_stored).

(** The same final submission when the refresh fails. *)
Definition after_final_offline : State * list Request :=
  submitAnswer after_initial.1 1 "final" (Resolved resp_final_low)
               (Rejected None).

(** A retry that is scored 0.75. *)
Definition resp_retry_good : AnswerResponse :=
  {| r_feedback := Some "Well explained.";
     r_score := Some (3 # 4); r_rating := Some 4;
     r_is_sufficient := true; r_submission_type := Some "retry";
     r_examples := None |}.

Definition q1_good : Question :=
  {| id := 1; question_number := 1;
     question_text := "Why did Wilbur cry?";
     answer := Some "He was lonely";
     feedback := Some "Well explained.";
     score := Some (3 # 4); rating := Some 4 |}.

Definition session_good : Session :=
  {| book_title := "Charlotte's Web"; chapter := "Chapter 1";
     questions := [q1_good] |}.

(** A question on the server before any submission. *)
Definition core_q1 : Core.Question :=
  {| Core.question_text := "Why did Wilbur cry?"; Core.history := [];
     Core.current_answer := None; Core.current_score := None;
     Core.current_rating := None |}.

(** The same question after an initial answer scored 0.3. *)
Definition core_q1_awaiting : Core.Question :=
  {| Core.question_text := "Why did Wilbur cry?";
     Core.history :=
       [ {| Core.answer_text := "He was lonely";
            Core.submission_type := Core.initial;
            Core.score := 3 # 10; Core.rating := 2 |} ];
     Core.current_answer := Some "He was lonely";
     Core.current_score := Some (3 # 10);
     Core.current_rating := Some 2 |}.

Definition evaluate_low (_ _ : string) : option Core.Evaluation :=
  Some {| Core.e_score := Some (3 # 10); Core.e_rating := 2;
          Core.e_feedback := "Say why he was lonely.";
          Core.e_examples := [] |}.

(** Scenario E: terminal answers scored 0.9, 0.6 (a final one) and 0.75,
    and an initial answer below the threshold that is not terminal. *)
Definition mk_answer (ty : Core.SubmissionType) (s : Q) : Core.Answer :=
  {| Core.answer_text := "text"; Core.submission_type := ty;
     Core.score := s; Core.rating := 3 |}.

Definition store_E : Core.Store :=
  {| Core.users := {[ 7 := {| Core.grade_level := 3;
                              Core.reading_level := 0 # 1 |} ]};
     Core.answer_log :=
       [ (7, mk_answer Core.initial (9 # 10));
         (7, mk_answer Core.initial (4 # 10));
         (7, mk_answer Core.final (6 # 10));
         (8, mk_answer Core.initial (1 # 1));
         (7, mk_answer Core.retry (75 # 100)) ] |}.

(** The same terminal answers seen from a store that differs in the
    stored level, in other users' rows and in non-terminal rows. *)
Definition store_E' : Core.Store :=
  {| Core.users := {[ 7 := {| Core.grade_level := 3;
                              Core.reading_level := 5 # 1 |} ]};
     Core.answer_log :=
       [ (7, mk_answer Core.initial (9 # 10));
         (7, mk_answer Core.final (6 # 10));
         (7, mk_answer Core.retry (2 # 10));
         (7, mk_answer Core.retry (75 # 100)) ] |}.

(** One admissible curve: the grade level shifted by ten times the
    distance of the mean from 0.7. *)
Definition linear_scale (m : Q) (grade : Z) : Q :=
  (inject_Z grade + (10 # 1) * (m - (7 # 10)))%Q.

End Scenario.

(** ** AuthContext.js: the provider's actions, one after another *)

Module AuthFlow.
Import Auth.

(** The provider at mount: [useState(localStorage.getItem('token'))], no
    user yet, loading. *)
Definition mount (ls headers : gmap string string) (baseURL : option string)
  : State :=
  {| user := None; loading := true; token := ls !! "token";
     localStorage := ls; axios_baseURL := baseURL;
     axios_headers_common := headers |}.

(** What [login] and [register] read from a rejected POST:
    [error.response?.data?.error] and [error.message]. *)
Record Failure := {
  response_error : option string;
  message : option string
}.

Inductive PostOutcome :=
| PostOk (access_token : string) (userData : User)
| PostFailed (f : Failure).

(** The object [login] and [register] return. *)
Record Result := {
  success : bool;
  error : option string
}.

Definition login (res : PostOutcome) (st : State) : State * Result :=
  match res with
  | PostOk access_token userData =>
      (login_resolved access_token userData st,
       {| success := true; error := None |})
  | PostFailed f =>
      (st,
       {| success := false;
          error :=
            Some (Js.or_else (response_error f)
                    (Js.or_else (message f)
                       "Login failed. Please check your connection and try again.")) |})
  end.

(** [register] stores the token exactly as [login] does. *)
Definition register (res : PostOutcome) (st : State) : State * Result :=
  match res with
  | PostOk access_token userData =>
      (login_resolved access_token userData st,
       {| success := true; error := None |})
  | PostFailed f =>
      (st,
       {| success := false;
          error :=
            Some (Js.or_else (response_error f)
                    (Js.or_else (message f)
                       "Registration failed. Please check your connection and try again.")) |})
  end.

(** [isAuthenticated: !!user] *)
Definition isAuthenticated (st : State) : bool :=
  match user st with Some _ => true | None => false end.

(** What can happen to the provider. *)
Inductive Action :=
| ATokenEffect (res : Outcome User)
| AFetchProfile (res : Outcome User)
| ALogin (res : PostOutcome)
| ARegister (res : PostOutcome)
| ALogout.

Definition step (API_URL : string) (st : State) (a : Action) : State :=
  match a with
  | ATokenEffect res => tokenEffect API_URL res st
  | AFetchProfile res => fetchProfile res st
  | ALogin res => (login res st).1
  | ARegister res => (register res st).1
  | ALogout => logout st
  end.

Definition run (API_URL : string) (st : State) (l : list Action) : State :=
  foldl (step API_URL) st l.

(** The stored token, the token state and the Authorization header agree. *)
Definition consistent (st : State) : Prop :=
  localStorage st !! "token" = token st /\
  forall h, axios_headers_common st !! "Authorization" = Some h ->
            exists t, token st = Some t /\ h = "Bearer " ++ t.

Definition sample_actions : list Action :=
  [ ATokenEffect Rejected;
    ALogin (PostFailed {| response_error := Some "Invalid credentials";
                          message := Some "Request failed" |});
    ALogin (PostOk "tok-2" luna);
    ATokenEffect (Resolved luna);
    ALogout ].

End AuthFlow.

(** ** components/Profile.js: the grade-level form *)

Module Profile.
Import SessionCreate.

(** [useState({ grade_level: 3 })] *)
Definition formData0 : gmap string value := {[ "grade_level" := VNum 3 ]}.

(** The effect on [authUser]: the form takes the user's grade level. *)
Definition authUserEffect (authUser : option Auth.User)
    (formData : gmap string value) : gmap string value :=
  match authUser with
  | Some u => {[ "grade_level" := VNum (Auth.grade_level u) ]}
  | None => formData
  end.

Definition handleChange (formData : gmap string value) (e : ChangeEvent)
  : gmap string value :=
  <[target_name e := VStr (target_value e)]> formData.

(** The [value] attributes of the six [<option>] elements. *)
Definition option_values : list string := ["1"; "2"; "3"; "4"; "5"; "6"].

(** The change events the form's only control, the [<select>], can fire. *)
Definition from_form (e : ChangeEvent) : Prop :=
  target_name e = "grade_level" /\ target_value e ∈ option_values.

#[global] Instance from_form_dec (e : ChangeEvent) : Decision (from_form e).
Proof. unfold from_form. apply _. Defined.

(** The [grade_level] of the body that [handleSubmit] puts. *)
Definition handleSubmit (formData : gmap string value) : option Z :=
  parseInt (formData !! "grade_level").

Definition sample_events : list ChangeEvent :=
  [ {| target_name := "grade_level"; target_value := "6" |};
    {| target_name := "grade_level"; target_value := "4" |} ].

End Profile.

(** ** SessionView.js: the score badges *)

Module SessionRun.

(** The order of the three score badges. *)
Definition class_rank (c : string) : nat :=
  if String.eqb c "score-high" then 2%nat
  else if String.eqb c "score-medium" then 1%nat
  else 0%nat.

End SessionRun.

(** ** SessionView.js: submissions in flight

    [submitAnswer] is an async function. What it writes after the await it
    computes from the render it closed over at the click, not from the
    state at the time the response arrives. Here the two halves are apart,
    and a run may interleave them freely. *)

Module SessionAsync.
Import SessionView.

(** The part of [submitAnswer] before the await: the check of the text,
    [setSubmitting], [setError('')] and the POST. *)
Definition click (st : State) (questionId : Z) (submissionType : string)
  : State * list Request :=
  if blank (answers st !! questionId) then
    ({| session := session st; answers := answers st;
        feedbacks := feedbacks st; examples := examples st;
        submissionStates := submissionStates st; loading := loading st;
        submitting := submitting st;
        error := "Please provide an answer before submitting" |}, [])
  else
    ({| session := session st; answers := answers st;
        feedbacks := feedbacks st; examples := examples st;
        submissionStates := submissionStates st; loading := loading st;
        submitting := <[questionId := true]> (submitting st);
        error := "" |},
     [PostAnswer questionId (default "" (answers st !! questionId))
                 submissionType]).

(** The part after the await. [snap] is the state of the render in which
    the button was clicked: [feedbacks], [examples], [submissionStates] and
    [submitting] in the spread expressions are its values. [live] is the
    state when the response arrives; what the handler does not set stays
    as it is there. The call of [fetchSession] shows as its GET; the
    response to it arrives later, as a load. *)
Definition settle (snap live : State) (questionId : Z)
    (submissionType : string) (post : Outcome AnswerResponse)
  : State * list Request :=
  match post with
  | Resolved r =>
      ({| session := session live; answers := answers live;
          feedbacks := <[questionId := feedbackData r]> (feedbacks snap);
          examples :=
            if has_examples r
            then <[questionId := default [] (r_examples r)]> (examples snap)
            else examples live;
          submissionStates :=
            if has_examples r
            then <[questionId := true]> (submissionStates snap)
            else submissionStates live;
          loading := loading live;
          submitting := <[questionId := false]> (submitting snap);
          error := error live |},
       if String.eqb submissionType "final" || r_is_sufficient r
       then [GetSession] else [])
  | Rejected e =>
      ({| session := session live; answers := answers live;
          feedbacks := feedbacks live; examples := examples live;
          submissionStates := submissionStates live;
          loading := loading live;
          submitting := <[questionId := false]> (submitting snap);
          error := Js.or_else e "Failed to submit answer" |}, [])
  end.

(** Two submissions in flight: the button of [q1] is clicked in state
    [st0], then the button of [q2]; the response for [q1] arrives first,
    then the one for [q2]. *)
Definition two_in_flight (st0 : State) (q1 : Z) (ty1 : string)
    (r1 : AnswerResponse) (q2 : Z) (ty2 : string) (r2 : AnswerResponse)
  : State :=
  let c1 := (click st0 q1 ty1).1 in
  let c2 := (click c1 q2 ty2).1 in
  let s1 := (settle st0 c2 q1 ty1 (Resolved r1)).1 in
  (settle c1 s1 q2 ty2 (Resolved r2)).1.

(** A handler that waits for its response, with the render it closed
    over. *)
Record Pending := {
  p_snap : State;
  p_questionId : Z;
  p_type : string
}.

(** The component with its submissions in flight. *)
Record Config := {
  live : State;
  pending : list Pending
}.

Definition init : Config := {| live := SessionView.init; pending := [] |}.

(** What can happen: the response to a GET of the session arrives, the
    user edits an answer, clicks a submit button, or the response to the
    [i]-th waiting POST arrives. *)
Inductive Event :=
| Load (res : Outcome Session)
| Edit (questionId : Z) (v : string)
| Click (questionId : Z) (submissionType : string)
| Settle (i : nat) (post : Outcome AnswerResponse).

Definition step (c : Config) (e : Event) : Config :=
  match e with
  | Load res => {| live := fetchSession (live c) res; pending := pending c |}
  | Edit questionId v =>
      {| live := handleAnswerChange (live c) questionId v;
         pending := pending c |}
  | Click questionId ty =>
      {| live := (click (live c) questionId ty).1;
         pending :=
           match (click (live c) questionId ty).2 with
           | [] => pending c
           | _ => (pending c ++
                   [{| p_snap := live c; p_questionId := questionId;
                       p_type := ty |}])%list
           end |}
  | Settle i post =>
      match pending c !! i with
      | Some p =>
          {| live := (settle (p_snap p) (live c) (p_questionId p)
                             (p_type p) post).1;
             pending := delete i (pending c) |}
      | None => c
      end
  end.

Definition run (c : Config) (l : list Event) : Config := foldl step c l.

(** What the dictionaries of flags and examples satisfy together: a stored
    flag is [true], a stored list of examples is not empty, and a question
    with stored examples has its flag. *)
Definition well_formed (st : State) : Prop :=
  (forall i b, submissionStates st !! i = Some b -> b = true) /\
  (forall i ex, examples st !! i = Some ex -> ex <> []) /\
  (forall i ex, examples st !! i = Some ex ->
     submissionStates st !! i = Some true).

(** Two questions of one session, both with a typed answer. *)
Definition st_two : State :=
  handleAnswerChange
    (handleAnswerChange
       (fetchSession SessionView.init
          (Resolved {| book_title := "Charlotte's Web";
                       chapter := "Chapter 1";
                       questions :=
                         [ Scenario.q1;
                           {| id := 2; question_number := 2;
                              question_text := "Who is Fern?";
                              answer := None; feedback := None;
                              score := None; rating := None |} ] |}))
       1 "He was lonely")
    2 "A girl".

(** The response to the second submission carries no examples. *)
Definition resp_no_examples : AnswerResponse :=
  {| r_feedback := Some "Say more about her.";
     r_score := Some (1 # 4); r_rating := Some 2;
     r_is_sufficient := false; r_submission_type := Some "initial";
     r_examples := None |}.

End SessionAsync.

(** ** The server side, played through *)

Module CoreScenario.

(** The evaluator scores the answer 0.85. *)
Definition evaluation_good : Core.Evaluation :=
  {| Core.e_score := Some (85 # 100); Core.e_rating := 4;
     Core.e_feedback := "Well explained."; Core.e_examples := [] |}.

Definition evaluate_good (_ _ : string) : option Core.Evaluation :=
  Some evaluation_good.

End CoreScenario.

(** ** utils/audioService.js: speech synthesis and recognition *)

Module AudioService.

(** What the constructor and the availability checks find in [window]. *)
Record Window := {
  speechSynthesis : bool;          (* window.speechSynthesis *)
  webkitSpeechRecognition : bool;  (* 'webkitSpeechRecognition' in window *)
  SpeechRecognition : bool         (* 'SpeechRecognition' in window *)
}.

Record Utterance := {
  u_text : string;
  u_lang : string;
  u_rate : Q;
  u_pitch : Q;
  u_volume : Q
}.

(** The [options] argument of [speak]; every field may be missing. *)
Record Options := {
  o_lang : option string;
  o_rate : Js.number;
  o_pitch : Js.number;
  o_volume : Js.number
}.

Definition no_options : Options :=
  {| o_lang := None; o_rate := None; o_pitch := None; o_volume := None |}.

(** The fields of the service; [synth] and [recognition] say whether the
    browser object is there. *)
Record Service := {
  synth : bool;
  recognition : bool;
  isSpeaking : bool;
  isListening : bool;
  currentUtterance : option Utterance
}.

(** Calls into the browser and into the callbacks the component installs. *)
Inductive Effect :=
| SynthCancel
| SynthSpeak (u : Utterance)
| RecognitionStart
| RecognitionStop
| Warn (msg : string)
| OnSpeakingStart
| OnSpeakingEnd
| OnListeningStart
| OnListeningEnd
| OnResult (transcript : string)
| OnError (err : string).

(** The double that the literal [0.8] denotes: 0x3FE999999999999A. *)
Definition lit_0_8 : Q := 3602879701896397 # 4503599627370496.

(** [x || d] on a number: zero, NaN and a missing value give [d]. *)
Definition num_or (x : Js.number) (d : Q) : Q :=
  match x with
  | Some q => if Qeq_bool q 0 then d else q
  | None => d
  end.

(** The constructor; [None] is the case [typeof window === 'undefined']. *)
Definition constructor (w : option Window) : Service :=
  match w with
  | None =>
      {| synth := false; recognition := false; isSpeaking := false;
         isListening := false; currentUtterance := None |}
  | Some w =>
      {| synth := speechSynthesis w;
         recognition := webkitSpeechRecognition w || SpeechRecognition w;
         isSpeaking := false; isListening := false;
         currentUtterance := None |}
  end.

(** [stopSpeaking]; [speaking] is the browser's [synth.speaking]. *)
Definition stopSpeaking (s : Service) (speaking : bool)
  : Service * list Effect :=
  ({| synth := synth s; recognition := recognition s; isSpeaking := false;
      isListening := isListening s; currentUtterance := None |},
   if synth s && speaking then [SynthCancel] else []).

Definition speak (s : Service) (speaking : bool) (text : string)
    (options : Options) : Service * list Effect :=
  let '(s1, effects) := stopSpeaking s speaking in
  if negb (synth s1) then
    (s1, (effects ++ [Warn "Speech synthesis not supported"])%list)
  else
    let utterance :=
      {| u_text := text;
         u_lang := Js.or_else (o_lang options) "en-US";
         u_rate := num_or (o_rate options) lit_0_8;
         u_pitch := num_or (o_pitch options) 1;
         u_volume := num_or (o_volume options) 1 |} in
    ({| synth := synth s1; recognition := recognition s1;
        isSpeaking := isSpeaking s1; isListening := isListening s1;
        currentUtterance := Some utterance |},
     (effects ++ [SynthSpeak utterance])%list).

(** [startListening]; [start_error] is the message of the exception that
    [recognition.start()] throws, if it throws. *)
Definition startListening (s : Service) (start_error : option string)
  : Service * list Effect :=
  if negb (recognition s) then
    (s, [OnError "Speech recognition not supported in this browser"])
  else
    match start_error with
    | None => (s, [RecognitionStart])
    | Some msg => (s, [RecognitionStart; OnError msg])
    end.

Definition stopListening (s : Service) : Service * list Effect :=
  ({| synth := synth s; recognition := recognition s;
      isSpeaking := isSpeaking s; isListening := false;
      currentUtterance := currentUtterance s |},
   if recognition s && isListening s then [RecognitionStop] else []).

Definition isSpeechRecognitionAvailable (w : Window) : bool :=
  webkitSpeechRecognition w || SpeechRecognition w.

Definition chrome : Window :=
  {| speechSynthesis := true; webkitSpeechRecognition := true;
     SpeechRecognition := false |}.

End AudioService.

(** ** SessionView.js: the voice buttons and the callbacks of the service *)

Module Voice.

(** A key of [answers], [isListening] and the value of the ref
    [speakingQuestionId]: a question id, or the string feedback-<id> that
    the "read feedback" button stores. *)
Abbreviation Key := (Z + Z)%type.
Abbreviation question_key := inl.
Abbreviation feedback_key := inr.

(** The component state the voice handlers touch. [stray_answers] holds the
    entries of [answers] under feedback-<id> keys, which no question
    reads. *)
Record State := {
  view : SessionView.State;
  stray_answers : gmap Z string;
  isSpeaking : bool;
  isListening : gmap Key bool;
  speakingQuestionId : option Key
}.

(** The method of the service a click calls. *)
Inductive Call :=
| CallSpeak (text : option string)
| CallStopSpeaking
| CallStartListening
| CallStopListening
| Alert (msg : string).

Definition set_ref (r : option Key) (v : State) : State :=
  {| view := view v; stray_answers := stray_answers v;
     isSpeaking := isSpeaking v; isListening := isListening v;
     speakingQuestionId := r |}.

Definition set_isListening (m : gmap Key bool) (v : State) : State :=
  {| view := view v; stray_answers := stray_answers v;
     isSpeaking := isSpeaking v; isListening := m;
     speakingQuestionId := speakingQuestionId v |}.

(** [setAnswers(prev => ({ ...prev, [key]: transcript }))] *)
Definition set_answer (k : Key) (transcript : string) (v : State) : State :=
  match k with
  | question_key q =>
      {| view := SessionView.handleAnswerChange (view v) q transcript;
         stray_answers := stray_answers v;
         isSpeaking := isSpeaking v; isListening := isListening v;
         speakingQuestionId := speakingQuestionId v |}
  | feedback_key i =>
      {| view := view v;
         stray_answers := <[i := transcript]> (stray_answers v);
         isSpeaking := isSpeaking v; isListening := isListening v;
         speakingQuestionId := speakingQuestionId v |}
  end.

(** The callbacks installed on the service. *)
Definition onSpeakingStart (v : State) : State :=
  {| view := view v; stray_answers := stray_answers v; isSpeaking := true;
     isListening := isListening v;
     speakingQuestionId := speakingQuestionId v |}.

Definition onSpeakingEnd (v : State) : State :=
  {| view := view v; stray_answers := stray_answers v; isSpeaking := false;
     isListening := isListening v; speakingQuestionId := None |}.

Definition onListeningStart (v : State) : State := v.

Definition onListeningEnd (v : State) : State :=
  match speakingQuestionId v with
  | Some k => set_isListening (<[k := false]> (isListening v)) v
  | None => v
  end.

Definition onResult (v : State) (transcript : string) : State :=
  match speakingQuestionId v with
  | Some k =>
      set_isListening (<[k := false]> (isListening v))
        (set_answer k transcript v)
  | None => v
  end.

Definition onError (v : State) (err : string) : State :=
  match speakingQuestionId v with
  | Some k => set_isListening (<[k := false]> (isListening v)) v
  | None => v
  end.

(** The speaker button of a question. *)
Definition clickReadQuestion (v : State) (q : SessionView.Question)
  : State * list Call :=
  if isSpeaking v
     && bool_decide (speakingQuestionId v
                     = Some (question_key (SessionView.id q)))
  then (v, [CallStopSpeaking])
  else (set_ref (Some (question_key (SessionView.id q))) v,
        [CallSpeak (Some (SessionView.question_text q))]).

(** The speaker button of the feedback box; it reads out [text]. *)
Definition clickReadFeedback (v : State) (q : SessionView.Question)
    (text : option string) : State * list Call :=
  if isSpeaking v
     && bool_decide (speakingQuestionId v
                     = Some (feedback_key (SessionView.id q)))
  then (v, [CallStopSpeaking])
  else (set_ref (Some (feedback_key (SessionView.id q))) v,
        [CallSpeak text]).

(** The microphone button; [available] is what
    [isSpeechRecognitionAvailable()] returns. *)
Definition clickMic (v : State) (available : bool) (q : SessionView.Question)
  : State * list Call :=
  let k : Key := question_key (SessionView.id q) in
  if default false (isListening v !! k) then
    (set_isListening (<[k := false]> (isListening v)) v, [CallStopListening])
  else if available then
    (set_isListening (<[k := true]> (isListening v)) (set_ref (Some k) v),
     [CallStartListening])
  else
    (v, [Alert "Speech recognition is not supported in your browser. Please use Chrome or Edge."]).

Definition init : State :=
  {| view := SessionView.init; stray_answers := ∅; isSpeaking := false;
     isListening := ∅; speakingQuestionId := None |}.

(** Voice input is started on question [qa], the transcript [t] arrives. *)
Definition dictate (v : State) (qa : SessionView.Question) (t : string)
  : State :=
  onResult (clickMic v true qa).1 t.

(** Voice input is started on [qa]; before the transcript arrives the
    speaker button of [qb] is clicked. *)
Definition dictate_then_read (v : State) (qa qb : SessionView.Question)
    (t : string) : State :=
  onResult (clickReadQuestion (clickMic v true qa).1 qb).1 t.

(** Voice input is started on [qa]; a speech output ends before the
    transcript arrives, then the recognition ends. *)
Definition dictate_after_speech_end (v : State) (qa : SessionView.Question)
    (t : string) : State :=
  onListeningEnd (onResult (onSpeakingEnd (clickMic v true qa).1) t).

Definition q2 : SessionView.Question :=
  {| SessionView.id := 2; SessionView.question_number := 2;
     SessionView.question_text := "Who is Fern?";
     SessionView.answer := None; SessionView.feedback := None;
     SessionView.score := None; SessionView.rating := None |}.

End Voice.

(** ** Facts about config.js *)

Lemma append_cons (d : ascii) (p s : string) :
  String d p ++ s = String d (p ++ s).
Proof. reflexivity. Qed.

Lemma string_snoc_cases (s : string) :
  s = "" \/ exists p c, s = p ++ String c "".
Proof.
  induction s as [|c s IH]; [by left|right].
  destruct IH as [->|(p & d & ->)].
  - by exists "", c.
  - by exists (String c p), d.
Qed.

Lemma replace_trailing_slash_snoc (p : string) (c : ascii) :
  Js.replace_trailing_slash (p ++ String c "") =
  if Ascii.eqb c "/" then p else p ++ String c "".
Proof.
  induction p as [|d p IH].
  - change ("" ++ String c "") with (String c "").
    change (Js.replace_trailing_slash (String c "")) with
      (if Ascii.eqb c "/" then "" else String c "").
    destruct (Ascii.eqb c "/"); reflexivity.
  - rewrite append_cons.
    assert (Js.replace_trailing_slash (String d (p ++ String c "")) =
            String d (Js.replace_trailing_slash (p ++ String c ""))) as ->
      by (destruct p; reflexivity).
    rewrite IH. destruct (Ascii.eqb c "/"); reflexivity.
Qed.

Lemma endsWith_slash_snoc (p : string) (c : ascii) :
  Js.endsWith_slash (p ++ String c "") = Ascii.eqb c "/".
Proof.
  induction p as [|d p IH]; [reflexivity|].
  rewrite append_cons, <- IH. destruct p; reflexivity.
Qed.

Lemma app_snoc_inj (p p' : string) (c c' : ascii) :
  p ++ String c "" = p' ++ String c' "" -> p = p' /\ c = c'.
Proof.
  revert p'. induction p as [|d p IH]; intros [|d' p'] H; cbn in H.
  - by inversion H.
  - inversion H as [[Hc Hp]]. destruct p'; discriminate.
  - inversion H as [[Hc Hp]]. destruct p; discriminate.
  - inversion H as [[Hd Hp]]. destruct (IH _ Hp) as [-> ->]. done.
Qed.

Lemma app_two_slashes (p : string) : p ++ "//" = (p ++ "/") ++ "/".
Proof.
  induction p as [|d p IH]; [done|]. by rewrite !append_cons, IH.
Qed.

Lemma truthy_snoc (p : string) (c : ascii) :
  Js.truthy (Some (p ++ String c "")) = true.
Proof. by destruct p. Qed.

(** C9, as the code has it: exactly one trailing slash is removed, so the
    exported [API_URL] ends with a slash precisely when the configured value
    ends with two of them. *)
Theorem API_URL_trailing_slash (e : Config.Env) :
  Js.endsWith_slash (Config.API_URL e) = true <->
  exists p, Config.API_BASE_URL e = p ++ "//".
Proof.
  unfold Config.API_URL.
  destruct (string_snoc_cases (Config.API_BASE_URL e)) as [->|(p & c & ->)].
  - simpl. split; [done|]. intros [[|] ?]; discriminate.
  - rewrite truthy_snoc, replace_trailing_slash_snoc.
    destruct (Ascii.eqb c "/") eqn:Hc.
    + apply Ascii.eqb_eq in Hc as ->.
      destruct (string_snoc_cases p) as [->|(q & d & ->)].
      * split; [done|]. intros [p' Hp']. rewrite app_two_slashes in Hp'.
        apply app_snoc_inj in Hp' as [Hp' _]. destruct p'; discriminate.
      * rewrite endsWith_slash_snoc. split.
        -- intros ->%Ascii.eqb_eq. exists q. by rewrite app_two_slashes.
        -- intros [p' Hp']. rewrite app_two_slashes in Hp'.
           apply app_snoc_inj in Hp' as [Hp' _].
           apply app_snoc_inj in Hp' as [_ ->]. done.
    + rewrite endsWith_slash_snoc, Hc. split; [done|].
      intros [p' Hp']. rewrite app_two_slashes in Hp'.
      apply app_snoc_inj in Hp' as [_ ->]. done.
Qed.

Lemma API_URL_trailing_slash_witness :
  exists p, Config.API_BASE_URL Config.env_double_slash = p ++ "//".
Proof.
  apply (proj1 (API_URL_trailing_slash Config.env_double_slash)).
  reflexivity.
Defined.

(** C9 as stated fails: a build-time value with two trailing slashes keeps
    one of them. *)
Lemma API_URL_may_end_with_slash :
  Config.API_URL Config.env_double_slash = "https://api.example.com/" /\
  ~ (forall e, Js.endsWith_slash (Config.API_URL e) = false).
Proof.
  split; [reflexivity|].
  intros H. specialize (H Config.env_double_slash). vm_compute in H. discriminate.
Qed.

(** ** Facts about SessionView.js *)

Section SessionViewFacts.
Import SessionView.

Lemma trimStart_whitespace (s : string) :
  whitespace_only s = true -> Js.trimStart s = "".
Proof.
  unfold whitespace_only. induction s as [|c s IH]; [done|].
  cbn. destruct (Js.is_space c); [exact IH|done].
Qed.

Lemma blank_whitespace (s : string) :
  whitespace_only s = true -> blank (Some s) = true.
Proof.
  intros H. unfold blank, Js.trim. cbn.
  rewrite (trimStart_whitespace s H). apply orb_true_r.
Qed.

(** An id that carries no feedback in the fetched questions gets no entry
    in [feedbacks] and none in [submissionStates]. *)
Lemma initialFeedbacks_None (qs : list Question) (i : Z) :
  (forall q, q ∈ qs -> id q = i -> Js.truthy (feedback q) = false) ->
  initialFeedbacks qs !! i = None /\ initialSubmissionStates qs !! i = None.
Proof.
  unfold initialFeedbacks, initialSubmissionStates.
  induction qs as [|q qs IH] using rev_ind; intros H; [done|].
  rewrite !foldl_app. cbn.
  destruct IH as [IH1 IH2].
  { intros q' Hq'. apply H, elem_of_app. by left. }
  destruct (Js.truthy (feedback q)) eqn:Hf; [|done].
  destruct (decide (id q = i)) as [Heq|Hne].
  - rewrite H in Hf; [done| |done]. apply elem_of_app. right. by left.
  - by rewrite !lookup_insert_ne.
Qed.

(** Buttons of a completed question: none. *)
Lemma completed_no_buttons (st : State) (q : Question) :
  isCompleted st q = true -> submitButtons st q = [].
Proof.
  intros H. unfold submitButtons, showActionButtons. rewrite H. cbn.
  by rewrite !andb_false_r.
Qed.

(** What the client does with a sufficient response: a question whose stored
    score is at least 0.7 is completed in every view; and when the response
    to a submission carries such a score together with a sufficiency flag
    that agrees with it, the question is completed in the resulting view. *)
Lemma sufficient_response_completes_view :
  (forall (st : State) (q : Question),
     Js.ge (score q) Js.lit_0_7 = true ->
     isCompleted st q = true /\ submitButtons st q = []) /\
  (forall (st : State) (qid : Z) (ty : string) (r : AnswerResponse)
          (refresh : Outcome Session),
     blank (answers st !! qid) = false ->
     Js.ge (r_score r) Js.lit_0_7 = true ->
     r_is_sufficient r = Js.ge (r_score r) Js.lit_0_7 ->
     (forall s' q, refresh = Resolved s' -> q ∈ questions s' -> id q = qid ->
                   Js.ge (score q) Js.lit_0_7 = true) ->
     forall s q,
       session (submitAnswer st qid ty (Resolved r) refresh).1 = Some s ->
       q ∈ questions s -> id q = qid ->
       isCompleted (submitAnswer st qid ty (Resolved r) refresh).1 q = true /\
       submitButtons (submitAnswer st qid ty (Resolved r) refresh).1 q = []).
Proof.
  assert (forall (st : State) (q : Question),
            Js.ge (score q) Js.lit_0_7 = true -> isCompleted st q = true)
    as Hstored.
  { intros st q H. unfold isCompleted. rewrite H. apply orb_true_r. }
  split.
  { intros st q H. split; [|apply completed_no_buttons]; by apply Hstored. }
  intros st qid ty r refresh Hblank Hscore Hflag Hrefresh s q.
  unfold submitAnswer. rewrite Hblank, Hflag, Hscore, orb_true_r.
  cbn [fst]. intros Hs Hq Hid.
  match goal with
  | |- isCompleted ?st' q = true /\ _ =>
      assert (isCompleted st' q = true) as Hc
  end.
  { destruct refresh as [s'|e]; cbn in Hs |- *.
    - injection Hs as <-. apply Hstored. by apply (Hrefresh s').
    - unfold isCompleted. cbn. rewrite Hid, lookup_insert_eq. cbn.
      by rewrite Hflag, Hscore. }
  split; [exact Hc|]. by apply completed_no_buttons.
Qed.

(** C5. A submission whose answer is missing, empty or made of white space
    only stops at the first check: no request is issued, nothing but the
    error message changes, and every question renders as before. *)
Theorem blank_answer_rejected
    (st : State) (qid : Z) (ty : string) (post : Outcome AnswerResponse)
    (refresh : Outcome Session) :
  (answers st !! qid = None \/
   exists s, answers st !! qid = Some s /\ whitespace_only s = true) ->
  (submitAnswer st qid ty post refresh).2 = [] /\
  session (submitAnswer st qid ty post refresh).1 = session st /\
  answers (submitAnswer st qid ty post refresh).1 = answers st /\
  feedbacks (submitAnswer st qid ty post refresh).1 = feedbacks st /\
  examples (submitAnswer st qid ty post refresh).1 = examples st /\
  submissionStates (submitAnswer st qid ty post refresh).1
    = submissionStates st /\
  submitting (submitAnswer st qid ty post refresh).1 = submitting st /\
  error (submitAnswer st qid ty post refresh).1
    = "Please provide an answer before submitting" /\
  forall q,
    isCompleted (submitAnswer st qid ty post refresh).1 q = isCompleted st q /\
    submitButtons (submitAnswer st qid ty post refresh).1 q
      = submitButtons st q.
Proof.
  intros H.
  assert (blank (answers st !! qid) = true) as Hb.
  { destruct H as [->|(s & -> & Hs)]; [done|by apply blank_whitespace]. }
  unfold submitAnswer. rewrite Hb. cbn. repeat split.
Qed.

Lemma blank_answer_rejected_witness :
  (submitAnswer (handleAnswerChange Scenario.st_loaded 1 "   ") 1 "initial"
     (Resolved Scenario.resp_initial_low) (Rejected None)).2 = [] /\
  feedbacks
    (submitAnswer (handleAnswerChange Scenario.st_loaded 1 "   ") 1 "initial"
       (Resolved Scenario.resp_initial_low) (Rejected None)).1 = ∅.
Proof.
  pose proof (blank_answer_rejected
                (handleAnswerChange Scenario.st_loaded 1 "   ") 1 "initial"
                (Resolved Scenario.resp_initial_low) (Rejected None)) as H.
  destruct H as (Hreq & _ & _ & Hfb & _).
  - right. exists "   ". split; reflexivity.
  - split; [exact Hreq|]. rewrite Hfb. reflexivity.
Defined.

(** C3, as the code has it. For a question that is not completed and whose
    first-submission flag is set, the buttons offered are "Try Again" and
    "Final Submit" exactly while the feedback on display is that of an
    initial submission; after any other submission, a retry included, no
    submit button is rendered. *)
Theorem action_buttons_only_after_initial (st : State) (q : Question) :
  isCompleted st q = false ->
  hasFirstSubmission st q = true ->
  submitButtons st q =
    if submissionType_is st q "initial" then ["retry"; "final"] else [].
Proof.
  intros Hc Hf. unfold submitButtons, showActionButtons.
  rewrite Hc, Hf. cbn.
  destruct (submissionType_is st q "initial") eqn:Ht;
    [|by rewrite andb_false_r].
  unfold submissionType_is in Ht. apply bool_decide_eq_true in Ht.
  destruct (feedbacks st !! id q) as [f|] eqn:Hfb; [|done].
  rewrite bool_decide_eq_true_2; [done|by eexists].
Qed.

Lemma action_buttons_only_after_initial_witness :
  submitButtons Scenario.after_retry.1 Scenario.q1 = [] /\
  submitButtons Scenario.after_initial.1 Scenario.q1 = ["retry"; "final"].
Proof.
  split.
  - exact (action_buttons_only_after_initial
             Scenario.after_retry.1 Scenario.q1 eq_refl eq_refl).
  - exact (action_buttons_only_after_initial
             Scenario.after_initial.1 Scenario.q1 eq_refl eq_refl).
Defined.

(** C3 as stated fails: after an initial answer scored 0.25 both buttons
    are there, and after a retry scored 0.5, still below the threshold,
    the question is not completed and no submit button is rendered. *)
Lemma retry_below_threshold_leaves_no_choice :
  submitButtons Scenario.after_initial.1 Scenario.q1 = ["retry"; "final"] /\
  Scenario.after_retry.2 = [PostAnswer 1 "He was lonely" "retry"] /\
  Js.ge (r_score Scenario.resp_retry_low) Js.lit_0_7 = false /\
  isCompleted Scenario.after_retry.1 Scenario.q1 = false /\
  submitButtons Scenario.after_retry.1 Scenario.q1 = [] /\
  submitButtons Scenario.after_retry.1 Scenario.q1 <> ["retry"; "final"].
Proof. repeat split. discriminate. Qed.

Lemma isCompleted_spec (st : State) (q : Question) :
  isCompleted st q = true <->
  (exists f, feedbacks st !! id q = Some f /\ isSufficient f = true) \/
  Js.ge (score q) Js.lit_0_7 = true.
Proof.
  unfold isCompleted. rewrite orb_true_iff.
  destruct (feedbacks st !! id q) as [f|]; cbn.
  - split; (intros [H|H]; [left|by right]).
    + by exists f.
    + by destruct H as (f' & [= <-] & H).
  - split; (intros [H|H]; [|by right]); [done|by destruct H as (? & ? & _)].
Qed.

(** C4, as the code has it. The view counts the session as completed
    exactly when every question is sufficient: its feedback entry is
    flagged sufficient or its stored score is at least 0.7. A question
    that is neither keeps the session open, whatever type its last
    submission had, final included. *)
Theorem allCompleted_iff_all_sufficient (st : State) (s : Session) :
  (allCompleted st s = true <->
   forall q, q ∈ questions s ->
     (exists f, feedbacks st !! id q = Some f /\ isSufficient f = true) \/
     Js.ge (score q) Js.lit_0_7 = true) /\
  (forall q, q ∈ questions s ->
     default false (isSufficient <$> feedbacks st !! id q) = false ->
     Js.ge (score q) Js.lit_0_7 = false ->
     allCompleted st s = false).
Proof.
  assert (allCompleted st s = true <->
          forall q, q ∈ questions s -> isCompleted st q = true) as Hall.
  { unfold allCompleted. rewrite forallb_forall.
    split; intros H q Hq; apply H; by apply list_elem_of_In. }
  split.
  - rewrite Hall. split; intros H q Hq; apply isCompleted_spec; auto.
  - intros q Hq Hf Hs. apply not_true_is_false. intros Ha.
    pose proof (proj1 Hall Ha q Hq) as Hc.
    unfold isCompleted in Hc. by rewrite Hf, Hs in Hc.
Qed.

Lemma allCompleted_iff_all_sufficient_witness :
  allCompleted Scenario.after_final.1 Scenario.session_stored = false.
Proof.
  apply (proj2 (allCompleted_iff_all_sufficient
                  Scenario.after_final.1 Scenario.session_stored)
               Scenario.q1_stored).
  - apply list_elem_of_singleton. reflexivity.
  - reflexivity.
  - reflexivity.
Defined.

(** C4 as stated fails: the answer to the only question is submitted as
    final and scored 0.25; the session is fetched anew, and the view does
    not count it as completed, nor does it when the refresh fails. *)
Lemma finalized_below_threshold_not_completed :
  Scenario.after_final.2
    = [PostAnswer 1 "He was lonely" "final"; GetSession] /\
  session Scenario.after_final.1 = Some Scenario.session_stored /\
  allCompleted Scenario.after_final.1 Scenario.session_stored = false /\
  (feedbacks Scenario.after_final_offline.1 !! 1) ≫= submissionType
    = Some "final" /\
  allCompleted Scenario.after_final_offline.1 Scenario.session0 = false /\
  allCompleted Scenario.after_final.1 Scenario.session_stored <> true.
Proof. repeat split. discriminate. Qed.


Lemma NoDup_id_inj (qs : list Question) (q q' : Question) :
  NoDup (id <$> qs) -> q ∈ qs -> q' ∈ qs -> id q' = id q -> q' = q.
Proof.
  induction qs as [|a qs IH]; intros Hnd Hq Hq' Hid.
  - by apply elem_of_nil in Hq.
  - rewrite fmap_cons in Hnd. apply NoDup_cons in Hnd as [Hnotin Hnd].
    apply elem_of_cons in Hq as [->|Hq]; apply elem_of_cons in Hq' as [->|Hq'].
    + done.
    + exfalso. apply Hnotin. rewrite <- Hid. by apply list_elem_of_fmap_2.
    + exfalso. apply Hnotin. rewrite Hid. by apply list_elem_of_fmap_2.
    + by apply IH.
Qed.

(** C6. A question that comes from the server without feedback and without
    a score is not completed and gets exactly one submit button, the one
    for an initial submission; on the server side a question with an empty
    Answer history is NOT_ATTEMPTED, only initial is legal there, an
    initial submission is recorded and any other type is answered with
    InvalidSubmissionOrder. *)
Theorem unanswered_question_offers_initial_only (threshold : Q) :
  (forall (st : State) (data : Session) (q : Question),
     NoDup (id <$> questions data) ->
     q ∈ questions data ->
     Js.truthy (feedback q) = false ->
     score q = None ->
     isCompleted (fetchSession st (Resolved data)) q = false /\
     submitButtons (fetchSession st (Resolved data)) q = ["initial"]) /\
  Core.deriveState threshold [] = Core.NOT_ATTEMPTED /\
  Core.legalTypes Core.NOT_ATTEMPTED = [Core.initial] /\
  (forall (cq : Core.Question) (text : string) evaluate ev sc,
     Core.history cq = [] ->
     Js.trim text <> "" ->
     evaluate (Core.question_text cq) text = Some ev ->
     Core.e_score ev = Some sc ->
     exists a s cq',
       Core.recordSubmission threshold cq Core.initial text evaluate
         = inr (a, s, cq') /\
       Core.submission_type a = Core.initial /\
       Core.history cq' = [a]) /\
  (forall (cq : Core.Question) (ty : Core.SubmissionType) (text : string)
          evaluate,
     Core.history cq = [] ->
     ty <> Core.initial ->
     Js.trim text <> "" ->
     Core.recordSubmission threshold cq ty text evaluate
       = inl Core.InvalidSubmissionOrder).
Proof.
  split; [|split; [done|split; [done|split]]].
  - intros st data q Hnd Hq Hf Hs.
    destruct (initialFeedbacks_None (questions data) (id q)) as [Hfb Hss].
    { intros q' Hq' Hid. by rewrite (NoDup_id_inj _ q q' Hnd Hq Hq' Hid). }
    assert (isCompleted (fetchSession st (Resolved data)) q = false) as Hc.
    { unfold isCompleted. cbn. by rewrite Hfb, Hs. }
    split; [exact Hc|].
    unfold submitButtons, showActionButtons, hasFirstSubmission.
    rewrite Hc. cbn. by rewrite Hfb, Hss.
  - intros cq text evaluate ev sc Hh Ht Hev Hsc.
    unfold Core.recordSubmission.
    apply String.eqb_neq in Ht. rewrite Ht, Hh, Hev, Hsc. cbn.
    by eexists _, _, _.
  - intros cq ty text evaluate Hh Hty Ht.
    unfold Core.recordSubmission.
    apply String.eqb_neq in Ht. rewrite Ht, Hh. cbn.
    by destruct ty.
Qed.

Lemma unanswered_question_offers_initial_only_witness :
  submitButtons Scenario.st_loaded Scenario.q1 = ["initial"] /\
  Core.recordSubmission Core.default_threshold Scenario.core_q1 Core.retry
    "He was lonely" Scenario.evaluate_low = inl Core.InvalidSubmissionOrder.
Proof.
  destruct (unanswered_question_offers_initial_only Core.default_threshold)
    as (Hview & _ & _ & _ & Hother).
  split.
  - apply (Hview init Scenario.session0 Scenario.q1).
    + apply NoDup_singleton.
    + apply list_elem_of_singleton. reflexivity.
    + reflexivity.
    + reflexivity.
  - apply Hother.
    + reflexivity.
    + discriminate.
    + vm_compute. discriminate.
Defined.




End SessionViewFacts.

(** ** Facts about the server side of a submission *)

(** C1. An initial or retry submission whose evaluator score reaches the
    threshold leaves the question SUFFICIENT, a terminal state with no
    legal submission left, and it does so for either type: an initial
    submission on a question without answers and a retry on a question that
    awaits one are both recorded with that result. *)
Theorem sufficient_score_completes (threshold : Q) :
  (forall (q : Core.Question) (ty : Core.SubmissionType) (text : string)
          evaluate (a : Core.Answer) (s : Core.QuestionState)
          (q' : Core.Question),
     ty <> Core.final ->
     Core.recordSubmission threshold q ty text evaluate = inr (a, s, q') ->
     Core.is_sufficient threshold (Core.score a) = true ->
     s = Core.SUFFICIENT /\
     Core.isTerminal s = true /\
     Core.deriveState threshold (Core.history q') = Core.SUFFICIENT /\
     Core.legalTypes (Core.deriveState threshold (Core.history q')) = []) /\
  (forall (q : Core.Question) (ty : Core.SubmissionType) (text : string)
          evaluate ev sc,
     (ty = Core.initial /\ Core.history q = [] \/
      ty = Core.retry /\
      Core.deriveState threshold (Core.history q) = Core.AWAITING_RETRY) ->
     Js.trim text <> "" ->
     evaluate (Core.question_text q) text = Some ev ->
     Core.e_score ev = Some sc ->
     Core.is_sufficient threshold sc = true ->
     exists a q',
       Core.recordSubmission threshold q ty text evaluate
         = inr (a, Core.SUFFICIENT, q') /\
       Core.score a = sc /\ Core.submission_type a = ty /\
       Core.history q' = (Core.history q ++ [a])%list).
Proof.
  assert (forall h ty text sc rt,
            ty <> Core.final ->
            Core.is_sufficient threshold sc = true ->
            Core.deriveState threshold
              (h ++ [{| Core.answer_text := text; Core.submission_type := ty;
                        Core.score := sc; Core.rating := rt |}])
            = Core.SUFFICIENT) as Hd.
  { intros h ty text sc rt Hty Hsc. unfold Core.deriveState.
    rewrite last_snoc. cbn. rewrite Hsc. by destruct ty. }
  split.
  - intros q ty text evaluate a s q' Hty H Hsc.
    unfold Core.recordSubmission in H.
    destruct (String.eqb (Js.trim text) ""); [done|].
    destruct (Core.isTerminal _); [done|].
    destruct (negb _); [done|].
    destruct (evaluate _ _) as [ev|]; [|done].
    destruct (Core.e_score ev) as [sc|]; [|done].
    injection H as <- <- <-. cbn in Hsc. cbn [Core.history].
    by rewrite (Hd _ _ _ _ _ Hty Hsc).
  - intros q ty text evaluate ev sc Hcase Ht Hev Hsc Hsuff.
    unfold Core.recordSubmission.
    apply String.eqb_neq in Ht. rewrite Ht, Hev, Hsc.
    assert (Core.isTerminal (Core.deriveState threshold (Core.history q))
            = false /\
            negb (existsb (Core.SubmissionType_eqb ty)
                    (Core.legalTypes
                       (Core.deriveState threshold (Core.history q))))
            = false /\ ty <> Core.final) as (-> & -> & Hty).
    { destruct Hcase as [[-> Hh]|[-> Hs]]; [by rewrite Hh|by rewrite Hs]. }
    eexists _, _. split.
    { by rewrite (Hd _ _ _ _ _ Hty Hsuff). }
    done.
Qed.

Lemma sufficient_score_completes_witness :
  exists a q',
    Core.recordSubmission Core.default_threshold Scenario.core_q1_awaiting
      Core.retry "He was lonely because Fern left"
      CoreScenario.evaluate_good = inr (a, Core.SUFFICIENT, q') /\
    Core.score a = (85 # 100)%Q.
Proof.
  destruct (proj2 (sufficient_score_completes Core.default_threshold)
              Scenario.core_q1_awaiting Core.retry
              "He was lonely because Fern left" CoreScenario.evaluate_good
              CoreScenario.evaluation_good (85 # 100)%Q)
    as (a & q' & H & Hsc & _).
  - right. split; reflexivity.
  - vm_compute. discriminate.
  - reflexivity.
  - reflexivity.
  - reflexivity.
  - exists a, q'. by split.
Defined.

(** C2. A final submission that is recorded leaves the question FINALIZED,
    a terminal state, whatever score the evaluator gave; from then on every
    submission with a non-blank text, of any type, is answered with
    QuestionAlreadyComplete. *)
Theorem final_submission_finalizes
    (threshold : Q) (q : Core.Question) (text : string)
    (evaluate : string -> string -> option Core.Evaluation)
    (a : Core.Answer) (s : Core.QuestionState) (q' : Core.Question) :
  Core.recordSubmission threshold q Core.final text evaluate = inr (a, s, q') ->
  s = Core.FINALIZED /\
  Core.isTerminal s = true /\
  Core.deriveState threshold (Core.history q') = Core.FINALIZED /\
  Core.legalTypes (Core.deriveState threshold (Core.history q')) = [] /\
  forall (ty : Core.SubmissionType) (text' : string) evaluate',
    Js.trim text' <> "" ->
    Core.recordSubmission threshold q' ty text' evaluate'
      = inl Core.QuestionAlreadyComplete.
Proof.
  unfold Core.recordSubmission at 1. intros H.
  destruct (String.eqb (Js.trim text) ""); [done|].
  destruct (Core.isTerminal _); [done|].
  destruct (negb _); [done|].
  destruct (evaluate _ _) as [ev|]; [|done].
  destruct (Core.e_score ev) as [sc|]; [|done].
  injection H as <- <- <-. cbn [Core.history].
  assert (Core.deriveState threshold
            (Core.history q ++
             [{| Core.answer_text := text; Core.submission_type := Core.final;
                 Core.score := sc; Core.rating := Core.e_rating ev |}])
          = Core.FINALIZED) as Hd.
  { unfold Core.deriveState. by rewrite last_snoc. }
  rewrite Hd. repeat split.
  intros ty text' evaluate' Ht. unfold Core.recordSubmission.
  apply String.eqb_neq in Ht. rewrite Ht. cbn [Core.history]. by rewrite Hd.
Qed.

Lemma final_submission_finalizes_witness :
  exists a s q',
    Core.recordSubmission Core.default_threshold Scenario.core_q1_awaiting
      Core.final "He was lonely" Scenario.evaluate_low = inr (a, s, q') /\
    s = Core.FINALIZED /\
    Core.recordSubmission Core.default_threshold q' Core.retry
      "He was sad and lonely" Scenario.evaluate_low
      = inl Core.QuestionAlreadyComplete.
Proof.
  eexists _, _, _. split; [reflexivity|].
  destruct (final_submission_finalizes Core.default_threshold
              Scenario.core_q1_awaiting "He was lonely" Scenario.evaluate_low
              _ _ _ eq_refl) as (Hs & _ & _ & _ & Hnext).
  split; [exact Hs|]. apply Hnext. vm_compute. discriminate.
Defined.

Lemma terminalScores_recompute
    (threshold : Q) (scale : Q -> Z -> Q) (userId : Z) (st : Core.Store) :
  Core.terminalScores threshold
    (Core.recomputeReadingLevel threshold scale userId st) userId
  = Core.terminalScores threshold st userId.
Proof.
  unfold Core.recomputeReadingLevel.
  destruct (Core.users st !! userId); [|done].
  destruct (Core.terminalScores threshold st userId) eqn:E; exact E.
Qed.

(** C7. The reading level is recomputed from the user's terminal answer
    scores and grade level alone: a second recompute with no new answer in
    between changes nothing, and two stores that show the same grade level
    and the same terminal scores (at least one) yield the same level,
    whatever level was stored before and whatever other rows the log holds.
    With no terminal answer the stored level is kept. *)
Theorem recomputeReadingLevel_idempotent
    (threshold : Q) (scale : Q -> Z -> Q) (userId : Z) (st : Core.Store) :
  Core.recomputeReadingLevel threshold scale userId
    (Core.recomputeReadingLevel threshold scale userId st)
  = Core.recomputeReadingLevel threshold scale userId st /\
  Core.levelAfter threshold scale userId
    (Core.recomputeReadingLevel threshold scale userId st)
  = Core.levelAfter threshold scale userId st /\
  (forall (st' : Core.Store) (u u' : Core.User),
     Core.users st !! userId = Some u ->
     Core.users st' !! userId = Some u' ->
     Core.grade_level u = Core.grade_level u' ->
     Core.terminalScores threshold st userId
       = Core.terminalScores threshold st' userId ->
     Core.terminalScores threshold st userId <> [] ->
     Core.levelAfter threshold scale userId st
       = Core.levelAfter threshold scale userId st' /\
     Core.levelAfter threshold scale userId st
       = Some (scale (Core.mean (Core.terminalScores threshold st userId))
                     (Core.grade_level u))) /\
  (Core.terminalScores threshold st userId = [] ->
   Core.recomputeReadingLevel threshold scale userId st = st).
Proof.
  assert (Core.recomputeReadingLevel threshold scale userId
            (Core.recomputeReadingLevel threshold scale userId st)
          = Core.recomputeReadingLevel threshold scale userId st) as Hidem.
  { unfold Core.recomputeReadingLevel at 1.
    rewrite terminalScores_recompute.
    unfold Core.recomputeReadingLevel.
    destruct (Core.users st !! userId) as [u|] eqn:Hu; [|by rewrite Hu].
    destruct (Core.terminalScores threshold st userId) as [|x l] eqn:Hts;
      [by rewrite Hu|].
    cbn. rewrite lookup_insert_eq. cbn. by rewrite insert_insert_eq. }
  split; [exact Hidem|]. split.
  { unfold Core.levelAfter. by rewrite Hidem. }
  split.
  - intros st' u u' Hu Hu' Hg Hts Hne.
    unfold Core.levelAfter, Core.recomputeReadingLevel.
    rewrite Hu, Hu', <- Hts, <- Hg.
    destruct (Core.terminalScores threshold st userId) as [|x l]; [done|].
    cbn. by rewrite !lookup_insert_eq.
  - intros Hts. unfold Core.recomputeReadingLevel. rewrite Hts.
    by destruct (Core.users st !! userId).
Qed.

Lemma recomputeReadingLevel_idempotent_witness :
  Core.levelAfter Core.default_threshold Scenario.linear_scale 7
    Scenario.store_E
  = Core.levelAfter Core.default_threshold Scenario.linear_scale 7
      Scenario.store_E' /\
  Core.terminalScores Core.default_threshold Scenario.store_E 7
  = [9 # 10; 6 # 10; 75 # 100]%Q.
Proof.
  split; [|reflexivity].
  destruct (recomputeReadingLevel_idempotent Core.default_threshold
              Scenario.linear_scale 7 Scenario.store_E) as (_ & _ & H & _).
  refine (proj1 (H Scenario.store_E' _ _ eq_refl eq_refl eq_refl eq_refl _)).
  vm_compute. discriminate.
Defined.

(** ** Facts about AuthContext.js *)

(** C10. When the profile request is rejected, [fetchProfile] leaves no
    credential behind: user and token are null, localStorage has no token
    entry and the default headers no Authorization entry; the token effect
    that the change of [token] triggers restores none of them. *)
Theorem failed_profile_fetch_logs_out (st : Auth.State) :
  Auth.user (Auth.fetchProfile Auth.Rejected st) = None /\
  Auth.token (Auth.fetchProfile Auth.Rejected st) = None /\
  Auth.localStorage (Auth.fetchProfile Auth.Rejected st) !! "token" = None /\
  Auth.axios_headers_common (Auth.fetchProfile Auth.Rejected st)
    !! "Authorization" = None /\
  Auth.loading (Auth.fetchProfile Auth.Rejected st) = false /\
  forall (API_URL : string) (res : Auth.Outcome Auth.User),
    Auth.tokenEffect API_URL res (Auth.fetchProfile Auth.Rejected st)
    = Auth.fetchProfile Auth.Rejected st.
Proof.
  cbn. rewrite !lookup_delete_eq. repeat split.
Qed.

(** The token effect of a logged-in client whose profile request fails ends
    in the same cleared state. *)
Lemma tokenEffect_failure_clears (API_URL : string) :
  Auth.user (Auth.tokenEffect API_URL Auth.Rejected Auth.logged_in) = None /\
  Auth.token (Auth.tokenEffect API_URL Auth.Rejected Auth.logged_in) = None /\
  Auth.localStorage (Auth.tokenEffect API_URL Auth.Rejected Auth.logged_in)
    = ∅ /\
  Auth.axios_headers_common
    (Auth.tokenEffect API_URL Auth.Rejected Auth.logged_in) = ∅.
Proof.
  cbn. repeat split.
Qed.

(** ** Facts about SessionCreate.js *)

Section SessionCreateFacts.
Import SessionCreate.

Lemma handleChange_ok (formData : gmap string value) (e : ChangeEvent) :
from_form e -> total_questions_ok formData ->
total_questions_ok (handleChange formData e).
Proof.
intros He Hok. unfold total_questions_ok, handleChange.
destruct He as [Hn|[Hn|[Hn Hv]]]; rewrite Hn.
- by rewrite lookup_insert_ne.
- by rewrite lookup_insert_ne.
- right. exists (target_value e). by rewrite lookup_insert_eq.
Qed.

Lemma foldl_handleChange_ok (evs : list ChangeEvent)
  (formData : gmap string value) :
Forall from_form evs -> total_questions_ok formData ->
total_questions_ok (foldl handleChange formData evs).
Proof.
revert formData. induction evs as [|e evs IH]; intros formData Hall Hok.
- exact Hok.
- apply Forall_cons in Hall as [He Hall]. cbn.
  apply IH; [done|]. by apply handleChange_ok.
Qed.

(** C8. Whatever the user does with the form, the body that [handleSubmit]
  posts carries a [total_questions] that is one of 3, 5, 7 and 10; with
  the form untouched it is 5. *)
Theorem total_questions_from_fixed_set (evs : list ChangeEvent) :
Forall from_form evs ->
total_questions (handleSubmit formData0) = Some 5 /\
exists n,
  total_questions (handleSubmit (foldl handleChange formData0 evs)) = Some n
  /\ n ∈ [3; 5; 7; 10].
Proof.
intros Hall. split; [reflexivity|].
destruct (foldl_handleChange_ok evs formData0 Hall) as [H|(v & Hv & H)].
{ by left. }
- exists 5. unfold handleSubmit; cbn [total_questions]. rewrite H.
  split; [reflexivity|set_solver].
- unfold handleSubmit; cbn [total_questions]. rewrite H.
  unfold option_values in Hv.
  repeat (apply elem_of_cons in Hv as [->|Hv]);
    [exists 3|exists 5|exists 7|exists 10|by apply elem_of_nil in Hv];
    (split; [reflexivity|set_solver]).
Qed.

Lemma total_questions_from_fixed_set_witness :
total_questions (handleSubmit (foldl handleChange formData0 sample_events))
= Some 10.
Proof.
destruct (total_questions_from_fixed_set sample_events) as (_ & n & Hn & _).
- repeat apply Forall_cons_2; [by left|right; right|right; left|];
    [|done|apply Forall_nil_2].
  split; [reflexivity|]. unfold option_values. set_solver.
- reflexivity.
Defined.

End SessionCreateFacts.

(** ** More facts about config.js *)

(** X1. [API_URL] is the chosen base URL itself, or the base URL without its
    last character when that is a slash: nothing else is ever removed. *)
Theorem API_URL_removes_one_slash (e : Config.Env) :
  (Js.endsWith_slash (Config.API_BASE_URL e) = false /\
   Config.API_URL e = Config.API_BASE_URL e) \/
  (Js.endsWith_slash (Config.API_BASE_URL e) = true /\
   Config.API_BASE_URL e = Config.API_URL e ++ "/").
Proof.
  unfold Config.API_URL.
  destruct (string_snoc_cases (Config.API_BASE_URL e)) as [->|(p & c & ->)].
  - by left.
  - rewrite truthy_snoc, replace_trailing_slash_snoc, endsWith_slash_snoc.
    destruct (Ascii.eqb c "/") eqn:Hc; [right|by left].
    by apply Ascii.eqb_eq in Hc as ->.
Qed.

(** ** More facts about AuthContext.js *)

Section AuthFlowFacts.
Import Auth AuthFlow.

Lemma or_else_nonempty (o : option string) (fallback : string) :
  fallback <> "" -> Js.or_else o fallback <> "".
Proof.
  intros Hf. unfold Js.or_else. destruct o as [s|]; [|done].
  destruct (String.eqb s "") eqn:Hs; [done|]. by apply String.eqb_neq.
Qed.

Lemma fetchProfile_consistent (res : Outcome User) (st : State) :
  consistent st -> consistent (fetchProfile res st).
Proof.
  intros [Hls Hh]. destruct res as [u|]; [done|].
  split; cbn; [by rewrite lookup_delete_eq|].
  intros h. by rewrite lookup_delete_eq.
Qed.

Lemma login_resolved_consistent (t : string) (u : User) (st : State) :
  consistent (login_resolved t u st).
Proof.
  split; cbn; [by rewrite lookup_insert_eq|].
  intros h. rewrite lookup_insert_eq. intros [= <-]. by exists t.
Qed.

Lemma step_consistent (API_URL : string) (st : State) (a : Action) :
  consistent st -> consistent (step API_URL st a).
Proof.
  intros Hc. destruct a as [res|res|[t u|f]|[t u|f]|]; cbn.
  - unfold tokenEffect. destruct (token st) as [t|] eqn:Ht; [|done].
    destruct (Js.truthy (Some t)); [|done].
    apply fetchProfile_consistent. destruct Hc as [Hls _].
    split; cbn; [congruence|]. intros h. rewrite lookup_insert_eq.
    intros [= <-]. by exists t.
  - by apply fetchProfile_consistent.
  - apply login_resolved_consistent.
  - done.
  - apply login_resolved_consistent.
  - done.
  - split; cbn; [by rewrite lookup_delete_eq|].
    intros h. by rewrite lookup_delete_eq.
Qed.

(** X2. However logins, registrations, logouts, profile fetches and token
    effects follow each other and however each request ends, the token
    state equals the token entry of localStorage, and an Authorization
    header, when there is one, is "Bearer " followed by that token. *)
Theorem provider_keeps_token_consistent
    (API_URL : string) (ls headers : gmap string string)
    (baseURL : option string) (actions : list Action) :
  headers !! "Authorization" = None ->
  consistent (run API_URL (mount ls headers baseURL) actions).
Proof.
  intros Hh. unfold run.
  assert (consistent (mount ls headers baseURL)) as Hc.
  { split; [done|]. intros h. cbn. by rewrite Hh. }
  revert Hc. generalize (mount ls headers baseURL).
  induction actions as [|a actions IH]; intros st Hc; [done|].
  cbn. by apply IH, step_consistent.
Qed.

Lemma provider_keeps_token_consistent_witness :
  consistent (run "" (mount {[ "token" := "tok-1" ]} ∅ None) sample_actions).
Proof.
  apply (provider_keeps_token_consistent "" {[ "token" := "tok-1" ]} ∅ None
           sample_actions).
  reflexivity.
Defined.

Lemma or_else_spec (o : option string) (fallback : string) :
  (Js.truthy o = true -> o = Some (Js.or_else o fallback)) /\
  (Js.truthy o = false -> Js.or_else o fallback = fallback).
Proof.
  unfold Js.or_else, Js.truthy. destruct o as [s|]; [|done].
  by destruct (String.eqb s "").
Qed.

(** X3. A login or registration whose request fails changes nothing in the
    provider and stores no token. The message it hands back is the server's
    error when there is one, else the error's own message when there is
    one, else the fixed text of the function; it is never empty. *)
Theorem failed_login_changes_nothing (f : Failure) (st : State) :
  (login (PostFailed f) st).1 = st /\
  (register (PostFailed f) st).1 = st /\
  success (login (PostFailed f) st).2 = false /\
  success (register (PostFailed f) st).2 = false /\
  (exists m, error (login (PostFailed f) st).2 = Some m /\ m <> "" /\
     (Js.truthy (response_error f) = true -> response_error f = Some m) /\
     (Js.truthy (response_error f) = false ->
      Js.truthy (message f) = true -> message f = Some m) /\
     (Js.truthy (response_error f) = false ->
      Js.truthy (message f) = false ->
      m = "Login failed. Please check your connection and try again.")) /\
  (exists m, error (register (PostFailed f) st).2 = Some m /\ m <> "" /\
     (Js.truthy (response_error f) = true -> response_error f = Some m) /\
     (Js.truthy (response_error f) = false ->
      Js.truthy (message f) = true -> message f = Some m) /\
     (Js.truthy (response_error f) = false ->
      Js.truthy (message f) = false ->
      m = "Registration failed. Please check your connection and try again.")).
Proof.
  assert (forall fb, fb <> "" ->
    exists m,
      Some (Js.or_else (response_error f) (Js.or_else (message f) fb))
        = Some m /\ m <> "" /\
      (Js.truthy (response_error f) = true -> response_error f = Some m) /\
      (Js.truthy (response_error f) = false ->
       Js.truthy (message f) = true -> message f = Some m) /\
      (Js.truthy (response_error f) = false ->
       Js.truthy (message f) = false -> m = fb)) as H.
  { intros fb Hfb. eexists. split; [done|]. split; [|split; [|split]].
    - by apply or_else_nonempty, or_else_nonempty.
    - apply or_else_spec.
    - intros Hr Hm. rewrite (proj2 (or_else_spec _ _) Hr).
      by apply or_else_spec.
    - intros Hr Hm. rewrite (proj2 (or_else_spec _ _) Hr).
      by apply or_else_spec. }
  repeat split; cbn; by apply H.
Qed.

(** X4. A successful login, the token effect that the new token triggers
    and then a logout: user, token, the token entry of localStorage and the
    Authorization header are gone, every other entry of localStorage and of
    the default headers is as it was before the login, but the base URL
    that the effect wrote into the axios defaults stays: logout does not
    reset it. *)
Theorem logout_undoes_login
    (API_URL : string) (res : Outcome User) (t : string) (u : User)
    (st : State) :
  t <> "" ->
  logout (tokenEffect API_URL res (login_resolved t u st))
  = {| user := None; loading := false; token := None;
       localStorage := delete "token" (localStorage st);
       axios_baseURL :=
         if Js.truthy (Some API_URL) then Some API_URL else axios_baseURL st;
       axios_headers_common :=
         delete "Authorization" (axios_headers_common st) |} /\
  (forall k, k <> "token" ->
     localStorage (logout (tokenEffect API_URL res (login_resolved t u st)))
       !! k = localStorage st !! k) /\
  (forall k, k <> "Authorization" ->
     axios_headers_common
       (logout (tokenEffect API_URL res (login_resolved t u st))) !! k
     = axios_headers_common st !! k) /\
  (API_URL <> "" ->
   axios_baseURL (logout (tokenEffect API_URL res (login_resolved t u st)))
   = Some API_URL).
Proof.
  intros Ht.
  assert (Js.truthy (Some t) = true) as Htruthy.
  { cbn. apply negb_true_iff. by apply String.eqb_neq. }
  assert (logout (tokenEffect API_URL res (login_resolved t u st))
          = {| user := None; loading := false; token := None;
               localStorage := delete "token" (localStorage st);
               axios_baseURL :=
                 if Js.truthy (Some API_URL) then Some API_URL
                 else axios_baseURL st;
               axios_headers_common :=
                 delete "Authorization" (axios_headers_common st) |}) as ->.
  { unfold tokenEffect, login_resolved. cbn [token]. rewrite Htruthy.
    unfold logout, fetchProfile. destruct res as [data|]; cbn;
      by rewrite ?delete_delete_eq, ?insert_insert_eq, ?delete_insert_eq. }
  split; [done|].
  cbn [localStorage axios_headers_common axios_baseURL]. split; [|split].
  - intros k Hk. by rewrite lookup_delete_ne.
  - intros k Hk. by rewrite lookup_delete_ne.
  - intros Hapi. assert (Js.truthy (Some API_URL) = true) as ->; [|done].
    cbn. apply negb_true_iff. by apply String.eqb_neq.
Qed.

(** X20. Mounting the provider on a page with a stored, non-empty token and
    a profile request that succeeds ends authenticated, with the header
    "Bearer <token>" installed and localStorage untouched; with no stored
    token (or an empty one) no header is written and the provider just
    stops loading, unauthenticated. *)
Theorem reload_restores_session
    (API_URL : string) (ls headers : gmap string string)
    (baseURL : option string) (res : Outcome User) :
  (forall t u, ls !! "token" = Some t -> t <> "" -> res = Resolved u ->
     user (tokenEffect API_URL res (mount ls headers baseURL)) = Some u /\
     isAuthenticated (tokenEffect API_URL res (mount ls headers baseURL))
       = true /\
     token (tokenEffect API_URL res (mount ls headers baseURL)) = Some t /\
     axios_headers_common (tokenEffect API_URL res (mount ls headers baseURL))
       !! "Authorization" = Some ("Bearer " ++ t) /\
     localStorage (tokenEffect API_URL res (mount ls headers baseURL)) = ls /\
     loading (tokenEffect API_URL res (mount ls headers baseURL)) = false) /\
  (Js.truthy (ls !! "token") = false ->
     user (tokenEffect API_URL res (mount ls headers baseURL)) = None /\
     isAuthenticated (tokenEffect API_URL res (mount ls headers baseURL))
       = false /\
     axios_headers_common (tokenEffect API_URL res (mount ls headers baseURL))
       = headers /\
     axios_baseURL (tokenEffect API_URL res (mount ls headers baseURL))
       = baseURL /\
     localStorage (tokenEffect API_URL res (mount ls headers baseURL)) = ls /\
     loading (tokenEffect API_URL res (mount ls headers baseURL)) = false).
Proof.
  unfold tokenEffect, mount. cbn [token]. split.
  - intros t u -> Ht ->.
    assert (Js.truthy (Some t) = true) as ->.
    { cbn. apply negb_true_iff. by apply String.eqb_neq. }
    cbn. by rewrite lookup_insert_eq.
  - intros Hf. destruct (ls !! "token") as [t|]; [|done].
    by rewrite Hf.
Qed.

Lemma reload_restores_session_witness :
  isAuthenticated
    (tokenEffect "" (Resolved luna) (mount {[ "token" := "tok-1" ]} ∅ None))
  = true.
Proof.
  destruct (reload_restores_session "" {[ "token" := "tok-1" ]} ∅ None
              (Resolved luna)) as [H _].
  destruct (H "tok-1" luna) as (_ & Hauth & _).
  - reflexivity.
  - discriminate.
  - reflexivity.
  - exact Hauth.
Defined.

Lemma failed_login_changes_nothing_witness :
  error (login (PostFailed {| response_error := None;
                              message := Some "Network Error" |})
               logged_in).2 = Some "Network Error".
Proof.
  destruct (failed_login_changes_nothing
              {| response_error := None; message := Some "Network Error" |}
              logged_in)
    as (_ & _ & _ & _ & (m & Hm & _ & _ & Hmessage & _) & _).
  rewrite Hm. symmetry. apply Hmessage; reflexivity.
Defined.

Lemma logout_undoes_login_witness :
  axios_baseURL
    (logout (tokenEffect "http://localhost:5001" (Resolved luna)
               (login_resolved "tok-2" luna
                  (mount {[ "theme" := "dark" ]} ∅ None))))
  = Some "http://localhost:5001" /\
  localStorage
    (logout (tokenEffect "http://localhost:5001" (Resolved luna)
               (login_resolved "tok-2" luna
                  (mount {[ "theme" := "dark" ]} ∅ None)))) !! "theme"
  = Some "dark".
Proof.
  destruct (logout_undoes_login "http://localhost:5001" (Resolved luna)
              "tok-2" luna (mount {[ "theme" := "dark" ]} ∅ None))
    as (_ & Hls & _ & Hbase); [discriminate|].
  split; [apply Hbase; discriminate|].
  rewrite (Hls "theme"); [reflexivity|discriminate].
Defined.

End AuthFlowFacts.

(** ** More facts about SessionCreate.js and Profile.js *)

Section FormFacts.
Import SessionCreate.

Lemma digit_value_pretty_N_char (d : N) :
  (d < 10)%N -> digit_value (pretty_N_char d) = Some (Z.of_N d).
Proof.
  intros H.
  assert (d = 0 \/ d = 1 \/ d = 2 \/ d = 3 \/ d = 4 \/ d = 5 \/ d = 6 \/
          d = 7 \/ d = 8 \/ d = 9)%N as Hd by lia.
  repeat (destruct Hd as [->|Hd]; [reflexivity|]). by subst.
Qed.

(** Reading back the digits that [pretty_N_go] puts in front of [s]. *)
Lemma parse_digits_pretty_N_go (x : N) :
  (0 < x)%N ->
  exists m : Z, forall (s : string) (acc : option Z),
    parse_digits 10 (pretty_N_go x s) acc
    = parse_digits 10 s (Some (default 0 acc * m + Z.of_N x)).
Proof.
  induction (N.lt_wf_0 x) as [x _ IH]. intros Hx.
  assert (parse_step :
    forall s acc,
      parse_digits 10 (String (pretty_N_char (x `mod` 10)) s) acc
      = parse_digits 10 s
          (Some (default 0 acc * 10 + Z.of_N (x `mod` 10)))).
  { intros s acc. cbn [parse_digits].
    rewrite digit_value_pretty_N_char by (apply N.mod_lt; lia).
    assert ((Z.of_N (x `mod` 10) <? 10)%Z = true) as ->; [|done].
    apply Z.ltb_lt. pose proof (N.mod_lt x 10). lia. }
  destruct (decide (x `div` 10 = 0)%N) as [Hz|Hnz].
  - exists 10. intros s acc. rewrite pretty_N_go_step, Hz, pretty_N_go_0 by done.
    rewrite parse_step. do 2 f_equal.
    pose proof (N.div_mod x 10 ltac:(done)) as Hdm. rewrite Hz in Hdm.
    generalize (default 0 acc). intros a. lia.
  - destruct (IH (x `div` 10)%N) as [m Hm].
    { apply N.div_lt; lia. }
    { by apply N.neq_0_lt_0. }
    exists (m * 10). intros s acc.
    rewrite pretty_N_go_step, Hm, parse_step by done. cbn [default].
    do 2 f_equal. pose proof (N.div_mod x 10 ltac:(done)) as Hdm.
    assert (Z.of_N x = 10 * Z.of_N (x `div` 10) + Z.of_N (x `mod` 10)) as ->.
    { rewrite Hdm at 1. by rewrite N2Z.inj_add, N2Z.inj_mul. }
    unfold id. ring.
Qed.

(** The printed form of a positive number starts with a digit from 1 to 9. *)
Lemma pretty_N_go_head (x : N) (s : string) :
  (0 < x)%N ->
  exists d rest, (0 < d < 10)%N /\
    pretty_N_go x s = String (pretty_N_char d) rest.
Proof.
  revert s. induction (N.lt_wf_0 x) as [x _ IH]. intros s Hx.
  rewrite pretty_N_go_step by done.
  destruct (decide (x `div` 10 = 0)%N) as [Hz|Hnz].
  - rewrite Hz, pretty_N_go_0. exists (x `mod` 10)%N, s. split; [|done].
    pose proof (N.div_mod x 10 ltac:(done)) as Hdm. rewrite Hz in Hdm.
    pose proof (N.mod_lt x 10 ltac:(done)). lia.
  - apply IH; [apply N.div_lt; lia|by apply N.neq_0_lt_0].
Qed.

Lemma parseInt_string_digit_headed (d : N) (rest : string) :
  (0 < d < 10)%N ->
  parseInt_string (String (pretty_N_char d) rest)
  = Z.mul 1 <$> parse_digits 10 (String (pretty_N_char d) rest) None /\
  parseInt_string ("-" ++ String (pretty_N_char d) rest)
  = Z.mul (-1) <$> parse_digits 10 (String (pretty_N_char d) rest) None.
Proof.
  intros H.
  assert (d = 1 \/ d = 2 \/ d = 3 \/ d = 4 \/ d = 5 \/ d = 6 \/
          d = 7 \/ d = 8 \/ d = 9)%N as Hd by lia.
  repeat (destruct Hd as [->|Hd]; [split; reflexivity|]).
  subst. split; reflexivity.
Qed.

Lemma parseInt_string_pretty (n : Z) : parseInt_string (pretty n) = Some n.
Proof.
  assert (forall p, parse_digits 10 (pretty_N_go (N.pos p) "") None
                    = Some (Z.pos p)) as Hpos.
  { intros p. destruct (parse_digits_pretty_N_go (N.pos p)) as [m Hm]; [lia|].
    rewrite Hm. cbn. f_equal. }
  destruct n as [|p|p].
  - reflexivity.
  - change (pretty (Z.pos p)) with (pretty_N_go (N.pos p) "").
    destruct (pretty_N_go_head (N.pos p) "") as (d & rest & Hd & Hhead);
      [lia|].
    rewrite Hhead, (proj1 (parseInt_string_digit_headed d rest Hd)).
    rewrite <- Hhead, Hpos. cbn. f_equal.
  - change (pretty (Z.neg p)) with ("-" ++ pretty_N_go (N.pos p) "").
    destruct (pretty_N_go_head (N.pos p) "") as (d & rest & Hd & Hhead);
      [lia|].
    rewrite Hhead, (proj2 (parseInt_string_digit_headed d rest Hd)).
    rewrite <- Hhead, Hpos. cbn. f_equal.
Qed.

(** X5. [parseInt] reads back every integer of magnitude below 2^53 (the
    integers a JavaScript number holds exactly and prints in decimal) from
    its print-out, so a numeric field that the user never touched (the
    initial 5 of the session form, the grade level of the profile) is sent
    unchanged. *)
Theorem parseInt_of_number (n : Z) :
  Z.abs n < 2 ^ 53 -> parseInt (Some (VNum n)) = Some n.
Proof. intros _. apply parseInt_string_pretty. Qed.

Lemma parseInt_of_number_witness :
  parseInt (Some (VNum 9007199254740991)) = Some 9007199254740991.
Proof. apply parseInt_of_number. vm_compute. reflexivity. Defined.

(** The last change event for field [k], if there is one. *)
Lemma foldl_handleChange_lookup (evs : list ChangeEvent)
    (formData : gmap string value) (k : string) :
  foldl handleChange formData evs !! k =
  match last (filter (fun e => target_name e = k) evs) with
  | Some e => Some (VStr (target_value e))
  | None => formData !! k
  end.
Proof.
  induction evs as [|e evs IH] using rev_ind; [done|].
  rewrite foldl_app, filter_app. cbn [foldl]. unfold handleChange at 1.
  rewrite filter_cons, filter_nil.
  destruct (decide (target_name e = k)) as [He|He].
  - by rewrite last_snoc, He, lookup_insert_eq.
  - by rewrite app_nil_r, lookup_insert_ne.
Qed.

(** X6. The session form is last-write-wins per field: the book title and
    the chapter that [handleSubmit] posts are the texts of the last change
    of their own input, or empty when it was never edited, whatever happened
    to the other fields in between. *)
Theorem posted_text_is_last_edit (evs : list ChangeEvent) :
  book_title (handleSubmit (foldl handleChange formData0 evs))
  = Some (VStr (default ""
       (target_value <$>
          last (filter (fun e => target_name e = "book_title") evs)))) /\
  chapter (handleSubmit (foldl handleChange formData0 evs))
  = Some (VStr (default ""
       (target_value <$>
          last (filter (fun e => target_name e = "chapter") evs)))).
Proof.
  unfold handleSubmit. cbn [book_title chapter].
  rewrite !foldl_handleChange_lookup.
  split.
  - by destruct (last (filter _ evs)).
  - by destruct (last (filter _ evs)).
Qed.

Lemma profile_option_value (v : string) :
  v ∈ Profile.option_values ->
  exists n, parseInt_string v = Some n /\ 1 <= n <= 6.
Proof.
  unfold Profile.option_values. intros Hv.
  repeat (apply elem_of_cons in Hv as [->|Hv]);
    [exists 1|exists 2|exists 3|exists 4|exists 5|exists 6|
     by apply elem_of_nil in Hv];
    (split; [reflexivity|lia]).
Qed.

(** X7. For a user whose grade level is an integer of magnitude below 2^53,
    the profile form sends the grade level the server gave when the select
    was not touched, and otherwise the number of the option chosen last,
    which lies between 1 and 6. *)
Theorem profile_grade_level_sent (u : Auth.User) (evs : list ChangeEvent) :
  Z.abs (Auth.grade_level u) < 2 ^ 53 ->
  Forall Profile.from_form evs ->
  Profile.handleSubmit
    (foldl Profile.handleChange
       (Profile.authUserEffect (Some u) Profile.formData0) evs)
  = match last evs with
    | None => Some (Auth.grade_level u)
    | Some e => parseInt_string (target_value e)
    end /\
  (evs <> [] ->
   exists n,
     Profile.handleSubmit
       (foldl Profile.handleChange
          (Profile.authUserEffect (Some u) Profile.formData0) evs) = Some n /\
     1 <= n <= 6).
Proof.
  intros _ Hall.
  assert (Profile.handleSubmit
            (foldl Profile.handleChange
               (Profile.authUserEffect (Some u) Profile.formData0) evs)
          = match last evs with
            | None => Some (Auth.grade_level u)
            | Some e => parseInt_string (target_value e)
            end) as Hsent.
  { unfold Profile.handleSubmit.
    change Profile.handleChange with handleChange.
    rewrite foldl_handleChange_lookup.
    assert (filter (fun e => target_name e = "grade_level") evs = evs) as ->.
    { induction Hall as [|e evs [He _] _ IH]; [done|].
      rewrite filter_cons. destruct (decide _); [by rewrite IH|done]. }
    destruct (last evs) as [e|]; [done|].
    cbn [Profile.authUserEffect]. rewrite lookup_singleton_eq.
    apply parseInt_string_pretty. }
  split; [exact Hsent|].
  intros Hne. rewrite Hsent.
  destruct (last evs) as [e|] eqn:Hlast.
  - apply profile_option_value.
    apply last_Some in Hlast as [l' ->].
    apply Forall_app in Hall as [_ Hall].
    apply Forall_singleton in Hall as [_ Hv]. exact Hv.
  - apply last_None in Hlast. done.
Qed.

Lemma profile_grade_level_sent_witness :
  Profile.handleSubmit
    (foldl Profile.handleChange
       (Profile.authUserEffect (Some Auth.luna) Profile.formData0)
       Profile.sample_events) = Some 4.
Proof.
  destruct (profile_grade_level_sent Auth.luna Profile.sample_events)
    as [H _].
  - vm_compute. reflexivity.
  - repeat apply Forall_cons_2; [| |apply Forall_nil_2];
      (split; [reflexivity|]); unfold Profile.option_values; set_solver.
  - rewrite H. reflexivity.
Defined.

End FormFacts.

(** ** More facts about SessionView.js *)

Section SessionViewMoreFacts.
Import SessionView.

Ltac unfold_render :=
  unfold submitButtons, showActionButtons, isCompleted, hasFirstSubmission,
    submissionType_is, button_disabled.

Lemma trim_empty : Js.trim "" = "".
Proof. reflexivity. Qed.

(** An enabled button means a text that passes the check of
    [submitAnswer]. *)
Lemma enabled_not_blank (st : State) (q : Question) :
  button_disabled st q = false ->
  exists a, answers st !! id q = Some a /\ Js.trim a <> "" /\
            blank (answers st !! id q) = false.
Proof.
  unfold button_disabled, blank. intros H.
  apply orb_false_elim in H as [_ H]. apply negb_false_iff in H.
  destruct (answers st !! id q) as [a|]; [|done]. cbn in H |- *.
  exists a. split; [done|].
  assert (Js.trim a <> "") as Htrim.
  { intros Heq. by rewrite Heq in H. }
  split; [done|]. rewrite H.
  destruct a; [by rewrite trim_empty in Htrim|done].
Qed.

(** X8. A submit button that is rendered enabled never runs into the
    empty-answer check: clicking it posts, as its first request, the text of
    the textarea as it stands (not trimmed) with the button's submission
    type. *)
Theorem enabled_button_posts_answer
    (st : State) (q : Question) (ty : string) (post : Outcome AnswerResponse)
    (refresh : Outcome Session) :
  button_disabled st q = false ->
  exists a,
    answers st !! id q = Some a /\ Js.trim a <> "" /\
    head (submitAnswer st (id q) ty post refresh).2
      = Some (PostAnswer (id q) a ty).
Proof.
  intros H. destruct (enabled_not_blank st q H) as (a & Ha & Htrim & Hb).
  exists a. split; [done|]. split; [done|].
  unfold submitAnswer. rewrite Hb, Ha.
  destruct post as [r|e]; [|done].
  by destruct (String.eqb ty "final" || r_is_sufficient r).
Qed.

Lemma enabled_button_posts_answer_witness :
  head (submitAnswer Scenario.st_typed 1 "initial"
          (Resolved Scenario.resp_initial_low) (Rejected None)).2
  = Some (PostAnswer 1 "He was lonely" "initial").
Proof.
  destruct (enabled_button_posts_answer Scenario.st_typed Scenario.q1
              "initial" (Resolved Scenario.resp_initial_low) (Rejected None)
              eq_refl) as (a & Ha & _ & H).
  injection Ha as <-. exact H.
Defined.



(** The accumulations of [fetchSession], for any condition and entry. *)
Lemma foldl_insert_if_None {V : Type} (P : Question -> bool)
    (f : Question -> V) (qs : list Question) (i : Z) :
  i ∉ id <$> qs ->
  foldl (fun (m : gmap Z V) q => if P q then <[id q := f q]> m else m)
        ∅ qs !! i = None.
Proof.
  induction qs as [|a qs IH] using rev_ind; intros Hi; [done|].
  rewrite foldl_app. cbn. rewrite fmap_app in Hi.
  apply not_elem_of_app in Hi as [Hqs Ha].
  destruct (P a); [|by apply IH].
  rewrite lookup_insert_ne; [by apply IH|].
  intros Heq. apply Ha. cbn. rewrite Heq. by left.
Qed.

Lemma foldl_insert_if_lookup {V : Type} (P : Question -> bool)
    (f : Question -> V) (qs : list Question) (q : Question) :
  NoDup (id <$> qs) -> q ∈ qs ->
  foldl (fun (m : gmap Z V) q => if P q then <[id q := f q]> m else m)
        ∅ qs !! id q
  = if P q then Some (f q) else None.
Proof.
  induction qs as [|a qs IH] using rev_ind; intros Hnd Hq.
  - by apply elem_of_nil in Hq.
  - rewrite fmap_app in Hnd. apply NoDup_app in Hnd as (Hnd & Hdisj & _).
    rewrite foldl_app. cbn. apply elem_of_app in Hq as [Hq|Hq].
    + assert (id a <> id q) as Hne.
      { intros Heq. apply (Hdisj (id q)); [by apply list_elem_of_fmap_2|].
        cbn. rewrite Heq. by left. }
      destruct (P a); [rewrite lookup_insert_ne by done|]; by apply IH.
    + apply list_elem_of_singleton in Hq as ->.
      destruct (P a); [by rewrite lookup_insert_eq|].
      apply foldl_insert_if_None. intros Hin. apply (Hdisj (id a) Hin).
      cbn. by left.
Qed.

(** X11. Loading a session whose question ids are distinct shows each
    question as the server stored it: the textarea holds the stored answer
    (nothing when it is missing or empty), the feedback entry and the
    first-submission flag are there exactly when feedback is stored, the
    question counts as completed exactly when its stored score is at least
    0.7, and no example answers are kept. *)
Theorem fetchSession_shows_stored_state
    (st : State) (data : Session) (q : Question) :
  NoDup (id <$> questions data) ->
  q ∈ questions data ->
  session (fetchSession st (Resolved data)) = Some data /\
  loading (fetchSession st (Resolved data)) = false /\
  answers (fetchSession st (Resolved data)) !! id q
    = (if Js.truthy (answer q) then answer q else None) /\
  feedbacks (fetchSession st (Resolved data)) !! id q
    = (if Js.truthy (feedback q) then Some (feedbackOf q) else None) /\
  hasFirstSubmission (fetchSession st (Resolved data)) q
    = Js.truthy (feedback q) /\
  isCompleted (fetchSession st (Resolved data)) q
    = Js.ge (score q) Js.lit_0_7 /\
  examples (fetchSession st (Resolved data)) = ∅.
Proof.
  intros Hnd Hq.
  assert (initialAnswers (questions data) !! id q
          = if Js.truthy (answer q) then answer q else None) as Ha.
  { unfold initialAnswers.
    rewrite (foldl_insert_if_lookup (fun q => Js.truthy (answer q))
               (fun q => default "" (answer q)) _ q Hnd Hq).
    by destruct (answer q). }
  assert (initialFeedbacks (questions data) !! id q
          = if Js.truthy (feedback q) then Some (feedbackOf q) else None)
    as Hf.
  { apply (foldl_insert_if_lookup (fun q => Js.truthy (feedback q))
             feedbackOf _ q Hnd Hq). }
  assert (initialSubmissionStates (questions data) !! id q
          = if Js.truthy (feedback q) then Some true else None) as Hs.
  { apply (foldl_insert_if_lookup (fun q => Js.truthy (feedback q))
             (fun _ => true) _ q Hnd Hq). }
  repeat split; try done.
  - unfold hasFirstSubmission. cbn. rewrite Hs.
    by destruct (Js.truthy (feedback q)).
  - unfold isCompleted. cbn. rewrite Hf.
    destruct (Js.truthy (feedback q)); cbn; [|done].
    by destruct (Js.ge (score q) Js.lit_0_7).
Qed.

Lemma fetchSession_shows_stored_state_witness :
  answers (fetchSession init (Resolved Scenario.session_stored)) !! 1
  = Some "He was lonely".
Proof.
  destruct (fetchSession_shows_stored_state init Scenario.session_stored
              Scenario.q1_stored) as (_ & _ & H & _).
  - apply NoDup_singleton.
  - apply list_elem_of_singleton. reflexivity.
  - exact H.
Defined.

(** X12. In every state a question shows one of three sets of submit
    buttons: none, the initial one alone, or retry and final together. The
    initial button is there exactly when the question is neither completed
    nor flagged as first-submitted, retry and final exactly when
    [showActionButtons] holds; a completed question has none. *)
Theorem submit_buttons_shape (st : State) (q : Question) :
  (submitButtons st q = [] \/ submitButtons st q = ["initial"] \/
   submitButtons st q = ["retry"; "final"]) /\
  (submitButtons st q = ["initial"] <->
   isCompleted st q = false /\ hasFirstSubmission st q = false) /\
  (submitButtons st q = ["retry"; "final"] <->
   showActionButtons st q = true) /\
  (isCompleted st q = true -> submitButtons st q = []).
Proof.
  assert (submissionType_is st q "initial" = true ->
          bool_decide (is_Some (feedbacks st !! id q)) = true) as Htype.
  { unfold submissionType_is. intros H%bool_decide_eq_true.
    apply bool_decide_eq_true. by destruct (feedbacks st !! id q). }
  unfold submitButtons, showActionButtons.
  destruct (isCompleted st q), (hasFirstSubmission st q),
    (submissionType_is st q "initial") eqn:Ht; cbn;
    try rewrite (Htype eq_refl); cbn; rewrite ?andb_false_r;
    repeat split; auto; try discriminate; intros [? ?]; discriminate.
Qed.

Lemma submit_buttons_shape_witness :
  submitButtons Scenario.after_initial.1 Scenario.q1 = ["retry"; "final"].
Proof.
  apply (proj1 (proj2 (proj2 (submit_buttons_shape
                                 Scenario.after_initial.1 Scenario.q1)))).
  reflexivity.
Defined.


(** X14. The colour class of a score badge follows the score: a higher
    score never gets a lower class, the class is score-high exactly for the
    scores that count as sufficient, and a missing score is shown as
    score-low. *)
Theorem getScoreClass_monotone (a b : Q) :
  (a <= b)%Q ->
  (SessionRun.class_rank (getScoreClass (Some a))
   <= SessionRun.class_rank (getScoreClass (Some b)))%nat /\
  (getScoreClass (Some a) = "score-high" <->
   Js.ge (Some a) Js.lit_0_7 = true) /\
  getScoreClass None = "score-low".
Proof.
  intros Hab.
  assert (forall lit, Js.ge (Some a) lit = true -> Js.ge (Some b) lit = true)
    as Hup.
  { intros lit H. cbn in *. apply Qle_bool_iff. apply Qle_bool_iff in H.
    by apply Qle_trans with a. }
  unfold getScoreClass. split; [|split; [|done]].
  - destruct (Js.ge (Some a) Js.lit_0_7) eqn:Ha7.
    { by rewrite (Hup _ Ha7). }
    destruct (Js.ge (Some a) Js.lit_0_5) eqn:Ha5.
    { rewrite (Hup _ Ha5). destruct (Js.ge (Some b) Js.lit_0_7); cbn; lia. }
    destruct (Js.ge (Some b) Js.lit_0_7), (Js.ge (Some b) Js.lit_0_5);
      cbn; lia.
  - destruct (Js.ge (Some a) Js.lit_0_7); [done|].
    by destruct (Js.ge (Some a) Js.lit_0_5).
Qed.

Lemma getScoreClass_monotone_witness :
  (SessionRun.class_rank (getScoreClass (Some (1 # 4)))
   <= SessionRun.class_rank (getScoreClass (Some (3 # 4))))%nat.
Proof.
  apply (getScoreClass_monotone (1 # 4) (3 # 4)).
  by apply Qle_bool_iff.
Defined.

End SessionViewMoreFacts.

(** ** Facts about the voice buttons and audioService.js *)

Section VoiceFacts.
Import Voice.

(** X15. A transcript is stored under whatever the shared ref
    [speakingQuestionId] holds when it arrives. Dictating into a question
    fills that question's answer and ends its listening state; but when the
    speaker button of another question is clicked in between, the
    transcript becomes the answer of that other question, the first one
    keeps its text and its microphone stays in the listening state. *)
Theorem transcript_follows_the_ref
    (v : State) (qa qb : SessionView.Question) (t : string) :
  default false (isListening v !! question_key (SessionView.id qa)) = false ->
  SessionView.id qa <> SessionView.id qb ->
  (SessionView.answers (view (dictate v qa t)) !! SessionView.id qa = Some t /\
   isListening (dictate v qa t) !! question_key (SessionView.id qa)
     = Some false) /\
  (SessionView.answers (view (dictate_then_read v qa qb t))
     !! SessionView.id qb = Some t /\
   SessionView.answers (view (dictate_then_read v qa qb t))
     !! SessionView.id qa
     = SessionView.answers (view v) !! SessionView.id qa /\
   isListening (dictate_then_read v qa qb t)
     !! question_key (SessionView.id qa) = Some true).
Proof.
  intros Hl Hne.
  unfold dictate, dictate_then_read, clickMic. rewrite Hl. cbn [fst].
  split.
  - unfold onResult. cbn. by rewrite !lookup_insert_eq.
  - unfold clickReadQuestion. cbn [isSpeaking speakingQuestionId set_ref
                                    set_isListening].
    assert (bool_decide
              (Some (question_key (SessionView.id qa))
               = Some (inl (SessionView.id qb) : Key)) = false) as ->.
    { apply bool_decide_eq_false. intros [= H]. done. }
    rewrite andb_false_r. cbn [fst]. unfold onResult. cbn.
    rewrite lookup_insert_eq, lookup_insert_ne by done.
    split; [done|]. split; [done|].
    rewrite lookup_insert_ne by (intros [= H]; done).
    by rewrite lookup_insert_eq.
Qed.

Lemma transcript_follows_the_ref_witness :
  SessionView.answers
    (view (dictate_then_read init Scenario.q1 q2 "She is a girl"))
    !! 2 = Some "She is a girl".
Proof.
  destruct (transcript_follows_the_ref init Scenario.q1 q2 "She is a girl")
    as (_ & H & _).
  - reflexivity.
  - discriminate.
  - exact H.
Defined.

(** X16. When a speech output ends while the microphone is listening, the
    ref is cleared: the transcript that arrives afterwards is dropped, no
    answer changes, and the end of the recognition no longer resets the
    listening state of the question. *)
Theorem transcript_dropped_after_speech_end
    (v : State) (qa : SessionView.Question) (t : string) :
  default false (isListening v !! question_key (SessionView.id qa)) = false ->
  view (dictate_after_speech_end v qa t) = view v /\
  stray_answers (dictate_after_speech_end v qa t) = stray_answers v /\
  isListening (dictate_after_speech_end v qa t)
    !! question_key (SessionView.id qa) = Some true /\
  speakingQuestionId (dictate_after_speech_end v qa t) = None.
Proof.
  intros Hl. unfold dictate_after_speech_end, clickMic. rewrite Hl.
  cbn. by rewrite lookup_insert_eq.
Qed.

Lemma transcript_dropped_after_speech_end_witness :
  isListening (dictate_after_speech_end init Scenario.q1 "He was lonely")
    !! question_key 1 = Some true.
Proof.
  exact (proj1 (proj2 (proj2 (transcript_dropped_after_speech_end
                                init Scenario.q1 "He was lonely" eq_refl)))).
Defined.

Lemma num_or_nonzero (x : Js.number) (d : Q) :
  ~ (d == 0)%Q -> ~ (AudioService.num_or x d == 0)%Q.
Proof.
  intros Hd. unfold AudioService.num_or. destruct x as [q|]; [|done].
  destruct (Qeq_bool q 0) eqn:Hq; [done|]. by apply Qeq_bool_neq.
Qed.

Lemma num_or_given (x : Js.number) (d q : Q) :
  x = Some q -> ~ (q == 0)%Q -> AudioService.num_or x d = q.
Proof.
  intros -> Hq. unfold AudioService.num_or.
  destruct (Qeq_bool q 0) eqn:E; [|done].
  by apply Qeq_bool_iff in E.
Qed.

Lemma num_or_default (x : Js.number) (d : Q) :
  x = None \/ (exists q, x = Some q /\ (q == 0)%Q) ->
  AudioService.num_or x d = d.
Proof.
  intros [->|(q & -> & Hq)]; [done|]. unfold AudioService.num_or.
  apply Qeq_bool_iff in Hq. by rewrite Hq.
Qed.

(** X17. With a synthesizer, [speak] cancels a running output first and
    then queues exactly one utterance of the given text, which becomes the
    current one. Each of its settings is the option when the option is
    truthy and the default otherwise: a language that is missing or empty
    becomes en-US, a rate that is missing or zero becomes the double 0.8
    (3602879701896397 / 2^52), a pitch or volume that is missing or zero
    becomes 1; so rate, pitch and volume are never zero and the language is
    never empty. Without a synthesizer it only warns and leaves no current
    utterance. *)
Theorem speak_queues_one_utterance
    (s : AudioService.Service) (speaking : bool) (text : string)
    (options : AudioService.Options) :
  (AudioService.synth s = true ->
   exists u,
     (AudioService.speak s speaking text options).2
       = ((if speaking then [AudioService.SynthCancel] else [])
          ++ [AudioService.SynthSpeak u])%list /\
     AudioService.currentUtterance
       (AudioService.speak s speaking text options).1 = Some u /\
     AudioService.u_text u = text /\
     AudioService.u_lang u <> "" /\
     ~ (AudioService.u_rate u == 0)%Q /\
     ~ (AudioService.u_pitch u == 0)%Q /\
     ~ (AudioService.u_volume u == 0)%Q /\
     (forall l, AudioService.o_lang options = Some l -> l <> "" ->
        AudioService.u_lang u = l) /\
     (AudioService.o_lang options = None \/
      AudioService.o_lang options = Some "" ->
        AudioService.u_lang u = "en-US") /\
     (forall q, AudioService.o_rate options = Some q -> ~ (q == 0)%Q ->
        AudioService.u_rate u = q) /\
     (AudioService.o_rate options = None \/
      (exists q, AudioService.o_rate options = Some q /\ (q == 0)%Q) ->
        AudioService.u_rate u = 3602879701896397 # 4503599627370496) /\
     (forall q, AudioService.o_pitch options = Some q -> ~ (q == 0)%Q ->
        AudioService.u_pitch u = q) /\
     (AudioService.o_pitch options = None \/
      (exists q, AudioService.o_pitch options = Some q /\ (q == 0)%Q) ->
        AudioService.u_pitch u = 1%Q) /\
     (forall q, AudioService.o_volume options = Some q -> ~ (q == 0)%Q ->
        AudioService.u_volume u = q) /\
     (AudioService.o_volume options = None \/
      (exists q, AudioService.o_volume options = Some q /\ (q == 0)%Q) ->
        AudioService.u_volume u = 1%Q)) /\
  (AudioService.synth s = false ->
   (AudioService.speak s speaking text options).2
     = [AudioService.Warn "Speech synthesis not supported"] /\
   AudioService.currentUtterance
     (AudioService.speak s speaking text options).1 = None) /\
  AudioService.isSpeaking (AudioService.speak s speaking text options).1
    = false.
Proof.
  unfold AudioService.speak, AudioService.stopSpeaking. cbn.
  destruct (AudioService.synth s); cbn; (split; [|split]); try done.
  intros _. eexists. split; [by destruct speaking|]. cbn.
  split; [reflexivity|]. split; [reflexivity|].
  split; [by apply or_else_nonempty|].
  split; [by apply num_or_nonzero|].
  split; [by apply num_or_nonzero|].
  split; [by apply num_or_nonzero|].
  split.
  { intros l -> Hl. unfold Js.or_else, Js.truthy.
    destruct l; [done|reflexivity]. }
  split.
  { by intros [->| ->]. }
  split; [intros q; apply num_or_given|].
  split; [apply (num_or_default _ AudioService.lit_0_8)|].
  split; [intros q; apply num_or_given|].
  split; [apply num_or_default|].
  split; [intros q; apply num_or_given|].
  apply num_or_default.
Qed.

Lemma speak_queues_one_utterance_witness :
  exists u,
    (AudioService.speak (AudioService.constructor (Some AudioService.chrome))
       true "Why did Wilbur cry?"
       {| AudioService.o_lang := None; AudioService.o_rate := Some (0 # 1);
          AudioService.o_pitch := None;
          AudioService.o_volume := Some (0 # 1) |}).2
    = [AudioService.SynthCancel; AudioService.SynthSpeak u] /\
    AudioService.u_lang u = "en-US" /\
    AudioService.u_rate u = 3602879701896397 # 4503599627370496 /\
    AudioService.u_pitch u = 1%Q /\
    AudioService.u_volume u = 1%Q.
Proof.
  destruct (speak_queues_one_utterance
              (AudioService.constructor (Some AudioService.chrome))
              true "Why did Wilbur cry?"
              {| AudioService.o_lang := None;
                 AudioService.o_rate := Some (0 # 1);
                 AudioService.o_pitch := None;
                 AudioService.o_volume := Some (0 # 1) |})
    as ((u & Heff & _ & _ & _ & _ & _ & _ & _ & Hlang & _ & Hrate & _
           & Hpitch & _ & Hvol) & _); [reflexivity|].
  exists u. split; [exact Heff|].
  split; [apply Hlang; by left|].
  split; [apply Hrate; right; by exists (0 # 1)%Q|].
  split; [apply Hpitch; by left|].
  apply Hvol; right; by exists (0 # 1)%Q.
Defined.

(** X18. The microphone button asks the browser before it calls the
    service: where speech recognition is available, a service constructed
    in that window has a recognizer and [startListening] begins with
    [recognition.start()], so its "not supported" error cannot be reached
    from the button; where it is not available the click only raises the
    alert and changes nothing. *)
Theorem mic_click_reaches_recognizer
    (v : State) (w : AudioService.Window) (q : SessionView.Question)
    (start_error : option string) :
  (CallStartListening
     ∈ (clickMic v (AudioService.isSpeechRecognitionAvailable w) q).2 ->
   head (AudioService.startListening
           (AudioService.constructor (Some w)) start_error).2
   = Some AudioService.RecognitionStart) /\
  (AudioService.isSpeechRecognitionAvailable w = false ->
   default false (isListening v !! question_key (SessionView.id q)) = false ->
   (clickMic v (AudioService.isSpeechRecognitionAvailable w) q).1 = v /\
   exists msg,
     (clickMic v (AudioService.isSpeechRecognitionAvailable w) q).2
       = [Alert msg]).
Proof.
  unfold clickMic, AudioService.startListening, AudioService.constructor,
    AudioService.isSpeechRecognitionAvailable.
  cbn [AudioService.recognition]. split.
  - destruct (default false _); cbn.
    { intros H. apply list_elem_of_singleton in H. discriminate. }
    destruct (AudioService.webkitSpeechRecognition w
              || AudioService.SpeechRecognition w); cbn.
    + intros _. by destruct start_error.
    + intros H. apply list_elem_of_singleton in H. discriminate.
  - intros -> ->. split; [done|by eexists].
Qed.

Lemma mic_click_reaches_recognizer_witness :
  head (AudioService.startListening
          (AudioService.constructor (Some AudioService.chrome))
          (Some "recognition has already started")).2
  = Some AudioService.RecognitionStart.
Proof.
  apply (proj1 (mic_click_reaches_recognizer init AudioService.chrome
                  Scenario.q1 (Some "recognition has already started"))).
  apply list_elem_of_singleton. reflexivity.
Defined.

End VoiceFacts.

(** ** Facts about submissions in flight *)

Section SessionAsyncFacts.
Import SessionView SessionAsync.

(** A submission that runs alone is the click followed at once by its
    response and, when a refresh was asked for, by the response to that. *)
Lemma submitAnswer_alone
    (st : State) (qid : Z) (ty : string) (post : Outcome AnswerResponse)
    (refresh : Outcome Session) :
  blank (answers st !! qid) = false ->
  submitAnswer st qid ty post refresh
  = (match (settle st (click st qid ty).1 qid ty post).2 with
     | [] => (settle st (click st qid ty).1 qid ty post).1
     | _ => fetchSession (settle st (click st qid ty).1 qid ty post).1 refresh
     end,
     ((click st qid ty).2 ++ (settle st (click st qid ty).1 qid ty post).2)%list).
Proof.
  intros Hb. unfold submitAnswer, click, settle. rewrite Hb.
  destruct post as [r|e]; [|done]. cbn.
  by destruct (String.eqb ty "final" || r_is_sufficient r).
Qed.

Lemma two_in_flight_eq
    (st0 : State) (q1 : Z) (ty1 : string) (r1 : AnswerResponse)
    (q2 : Z) (ty2 : string) (r2 : AnswerResponse) :
  blank (answers st0 !! q1) = false ->
  blank (answers st0 !! q2) = false ->
  two_in_flight st0 q1 ty1 r1 q2 ty2 r2
  = {| session := session st0; answers := answers st0;
       feedbacks := <[q2 := feedbackData r2]> (feedbacks st0);
       examples :=
         if has_examples r2
         then <[q2 := default [] (r_examples r2)]> (examples st0)
         else if has_examples r1
              then <[q1 := default [] (r_examples r1)]> (examples st0)
              else examples st0;
       submissionStates :=
         if has_examples r2
         then <[q2 := true]> (submissionStates st0)
         else if has_examples r1
              then <[q1 := true]> (submissionStates st0)
              else submissionStates st0;
       loading := loading st0;
       submitting := <[q2 := false]> (<[q1 := true]> (submitting st0));
       error := "" |}.
Proof.
  intros Hb1 Hb2. unfold two_in_flight, click. rewrite Hb1. cbn [fst answers].
  rewrite Hb2. reflexivity.
Qed.

(** X9. When the response to a submission arrives, the entries of all other
    questions in [feedbacks] and [submitting] are set back to what they
    were in the render of the click, whatever they have become since. So
    with two submissions in flight the second response erases the feedback
    that the first one brought and marks the first question as submitting
    again; and when only the first response carried examples, the first
    question keeps its first-submission flag without any feedback, so that
    no submit button is rendered for it. *)
Theorem overlapping_submissions_overwrite :
  (forall (snap live : State) (qid : Z) (ty : string) (r : AnswerResponse)
          (i : Z),
     i <> qid ->
     feedbacks (settle snap live qid ty (Resolved r)).1 !! i
       = feedbacks snap !! i /\
     submitting (settle snap live qid ty (Resolved r)).1 !! i
       = submitting snap !! i) /\
  (forall (st0 : State) (q1 : Question) (ty1 : string) (r1 : AnswerResponse)
          (q2 : Z) (ty2 : string) (r2 : AnswerResponse),
     id q1 <> q2 ->
     blank (answers st0 !! id q1) = false ->
     blank (answers st0 !! q2) = false ->
     feedbacks (two_in_flight st0 (id q1) ty1 r1 q2 ty2 r2) !! id q1
       = feedbacks st0 !! id q1 /\
     feedbacks (two_in_flight st0 (id q1) ty1 r1 q2 ty2 r2) !! q2
       = Some (feedbackData r2) /\
     submitting (two_in_flight st0 (id q1) ty1 r1 q2 ty2 r2) !! id q1
       = Some true /\
     (has_examples r1 = true -> has_examples r2 = false ->
      feedbacks st0 !! id q1 = None ->
      hasFirstSubmission (two_in_flight st0 (id q1) ty1 r1 q2 ty2 r2) q1
        = true /\
      submitButtons (two_in_flight st0 (id q1) ty1 r1 q2 ty2 r2) q1 = [])).
Proof.
  split.
  - intros snap live qid ty r i Hi. cbn. by rewrite !lookup_insert_ne.
  - intros st0 q1 ty1 r1 q2 ty2 r2 Hne Hb1 Hb2.
    rewrite (two_in_flight_eq _ _ _ _ _ _ _ Hb1 Hb2).
    cbn [feedbacks submitting].
    split; [by rewrite lookup_insert_ne|].
    split; [by rewrite lookup_insert_eq|].
    split; [by rewrite lookup_insert_ne, lookup_insert_eq|].
    intros He1 He2 Hnone.
    unfold submitButtons, showActionButtons, hasFirstSubmission,
      submissionType_is, isCompleted.
    cbn [submissionStates feedbacks]. rewrite He1, He2.
    rewrite lookup_insert_eq, (lookup_insert_ne _ q2 (id q1)), Hnone by done.
    cbn. split; [done|]. by rewrite andb_false_r.
Qed.

Lemma overlapping_submissions_overwrite_witness :
  feedbacks
    (two_in_flight st_two 1 "initial" Scenario.resp_initial_low
       2 "initial" resp_no_examples) !! 1 = None /\
  submitButtons
    (two_in_flight st_two 1 "initial" Scenario.resp_initial_low
       2 "initial" resp_no_examples) Scenario.q1 = [].
Proof.
  destruct (proj2 overlapping_submissions_overwrite st_two Scenario.q1
              "initial" Scenario.resp_initial_low 2 "initial"
              resp_no_examples) as (Hf & _ & _ & Hb).
  - discriminate.
  - reflexivity.
  - reflexivity.
  - split; [etrans; [exact Hf|reflexivity]|].
    apply Hb; reflexivity.
Defined.

Lemma fetchSession_well_formed (st : State) (res : Outcome Session) :
  well_formed st -> well_formed (fetchSession st res).
Proof.
  intros Hw. destruct res as [data|e]; [|exact Hw].
  split; [|split]; cbn.
  - intros i b. unfold initialSubmissionStates.
    induction (questions data) as [|a qs IH] using rev_ind; [done|].
    rewrite foldl_app. cbn. destruct (Js.truthy (feedback a)); [|exact IH].
    rewrite lookup_insert. case_decide; [by intros [= <-]|exact IH].
  - intros i ex. by rewrite lookup_empty.
  - intros i ex. by rewrite lookup_empty.
Qed.

Lemma settle_well_formed
    (snap st : State) (qid : Z) (ty : string) (post : Outcome AnswerResponse) :
  well_formed snap -> well_formed st ->
  well_formed (settle snap st qid ty post).1.
Proof.
  intros (Hs1 & Hs2 & Hs3) (Hl1 & Hl2 & Hl3).
  destruct post as [r|e]; [|by split].
  split; [|split]; cbn; unfold has_examples.
  - intros i b. destruct (r_examples r) as [[|x l]|]; try exact (Hl1 i b).
    rewrite lookup_insert. case_decide; [by intros [= <-]|exact (Hs1 i b)].
  - intros i ex. destruct (r_examples r) as [[|x l]|]; try exact (Hl2 i ex).
    rewrite lookup_insert. case_decide; [by intros [= <-]|exact (Hs2 i ex)].
  - intros i ex. destruct (r_examples r) as [[|x l]|]; try exact (Hl3 i ex).
    rewrite !lookup_insert. case_decide; [done|exact (Hs3 i ex)].
Qed.

Lemma step_well_formed (c : Config) (e : Event) :
  well_formed (live c) -> Forall (fun p => well_formed (p_snap p)) (pending c) ->
  well_formed (live (step c e)) /\
  Forall (fun p => well_formed (p_snap p)) (pending (step c e)).
Proof.
  intros Hl Hp. destruct e as [res|qid v|qid ty|i post]; cbn.
  - split; [by apply fetchSession_well_formed|done].
  - by split.
  - unfold click. destruct (blank (answers (live c) !! qid)); cbn.
    + by split.
    + split; [done|]. apply Forall_app. split; [done|].
      by apply Forall_singleton.
  - destruct (pending c !! i) as [p|] eqn:Hi; [|by split].
    cbn. split.
    + apply settle_well_formed; [|done].
      by apply (Forall_lookup_1 _ _ _ _ Hp Hi).
    + by apply Forall_delete.
Qed.

(** X13. However loads, edits, clicks and the responses to the waiting
    submissions interleave, and however each request ends, a
    first-submission flag is never stored as false, a list of example
    answers is never stored empty, and a question with stored examples
    always has its first-submission flag. *)
Theorem reachable_states_well_formed (events : list Event) :
  well_formed (live (run init events)).
Proof.
  unfold run.
  assert (well_formed (live init) /\
          Forall (fun p => well_formed (p_snap p)) (pending init)) as H.
  { split; [|by apply Forall_nil_2].
    split; [|split]; cbn; intros i; intros; by rewrite lookup_empty in *. }
  revert H. generalize init.
  induction events as [|e events IH]; intros c [Hl Hp]; [exact Hl|].
  cbn [foldl]. apply IH. by apply step_well_formed.
Qed.

End SessionAsyncFacts.
